(** * Decentralised-X: the [useAuth] hook (client/src/hooks/useAuth.ts)

    A shallow embedding of the two login flows of the hook:
    [handleGoogleAuth] (federated sign-in followed by wallet linking) and
    [connectWallet] (wallet-only Sign-In-With-Ethereum), with their helpers
    [getSiweMessage], [signMessage], [verifySignature] and
    [handleMetaMaskLogin].

    The hook is effectful: it talks to Firebase, to the injected wallet, to
    the authentication service through axios, and it writes to the redux
    store, the router, the toast sink and the console.  The external
    collaborators are an environment of oracles ([Env]); the effects are
    recorded, in program order, in the [events] of a [World], which also
    holds the redux user slice and the hook's [isWalletConnected] state.
    JavaScript exceptions are the left summand of the result of a
    computation; effects performed before a throw are kept. *)

From Stdlib Require Import String Ascii List Bool ZArith NArith.
Import ListNotations.

Set Warnings "-register-all".

Local Open Scope string_scope.
Local Open Scope list_scope.

(** ** JavaScript values *)

Module Js.

(** The JSON-like values that cross the boundary with axios. *)
Inductive jsval : Type :=
| JUndefined
| JNull
| JBool (b : bool)
| JNum (n : Z)
| JStr (s : string)
| JArr (items : list jsval)
| JObj (fields : list (string * jsval)).

(** [!!v]: [undefined], [null], [false], [0] and the empty string are
    falsy, every object and array is truthy. *)
Definition truthy (v : jsval) : bool :=
  match v with
  | JUndefined | JNull => false
  | JBool b => b
  | JNum n => negb (Z.eqb n 0)
  | JStr s => negb (String.eqb s "")
  | JArr _ | JObj _ => true
  end.

(** Truthiness of a [string | undefined] / [string | null]. *)
Definition truthy_str (o : option string) : bool :=
  match o with
  | Some s => negb (String.eqb s "")
  | None => false
  end.

(** The string of a [string | undefined] that passed a truthiness test. *)
Definition str_of (o : option string) : string :=
  match o with Some s => s | None => "" end.

(** [a || d] on a [string | null]. *)
Definition or_else (o : option string) (d : string) : string :=
  if truthy_str o then match o with Some s => s | None => d end else d.

(** [a || d] on a string. *)
Definition str_or (s d : string) : string :=
  if String.eqb s "" then d else s.

Fixpoint lookup (k : string) (fields : list (string * jsval)) : jsval :=
  match fields with
  | [] => JUndefined
  | (k', v) :: rest => if String.eqb k k' then v else lookup k rest
  end.

(** [v.k] for a data property [k]: a TypeError ([None]) on [undefined]
    and [null], the field of an object, [undefined] on everything else. *)
Definition get (v : jsval) (k : string) : option jsval :=
  match v with
  | JUndefined | JNull => None
  | JObj fields => Some (lookup k fields)
  | _ => Some JUndefined
  end.

(** [v === s] for a string literal [s]. *)
Definition strict_eq_str (v : jsval) (s : string) : bool :=
  match v with
  | JStr t => String.eqb t s
  | _ => false
  end.

Definition keys (v : jsval) : list string :=
  match v with
  | JObj fields => map fst fields
  | _ => []
  end.

(** A thrown [Error] object: the three properties the hook reads. *)
Record JsError : Type := mkError {
  code : jsval;
  message : string;
  response : option jsval   (* [err.response.data] of an AxiosError *)
}.

Definition Error (msg : string) : JsError := mkError JUndefined msg None.
Definition TypeError (msg : string) : JsError := mkError JUndefined msg None.

End Js.
Import Js.

(** ** Data of the hook *)

(** [result.user]: the two properties the hook reads, both [string | null]. *)
Record FirebaseUser : Type := {
  displayName : option string;
  photoURL : option string
}.

(** [OAuthCredential]: [accessToken?: string]. *)
Record OAuthCredential : Type := {
  accessToken : option string
}.

(** The value [signInWithPopup] resolves to, with what
    [GoogleAuthProvider.credentialFromResult] extracts from it
    ([OAuthCredential | null]). *)
Record UserCredential : Type := {
  user : FirebaseUser;
  credentialFromResult : option OAuthCredential
}.

(** The [user] object of the [setUser] payload; [walletAddress] is left
    out of the object in the wallet-less branches. *)
Record SessionUser : Type := {
  name : string;
  avatar : string;
  walletAddress : option string
}.

(** The payload of [setUser]: the session record. *)
Record SessionRecord : Type := {
  session_user : SessionUser;
  token : string
}.

Inductive severity : Type := Success | Error | Warn | Info.

Inductive logarg : Type :=
| LStr (s : string)
| LVal (v : jsval)
| LErr (e : JsError)
| LUser (u : FirebaseUser).

(** The effects of the hook, in the order the program performs them. *)
Inductive event : Type :=
| ConsoleLog (args : list logarg)
| ConsoleError (args : list logarg)
| SignInWithPopup                                  (* the Google popup *)
| EthereumRequest (method : string)                (* window.ethereum.request *)
| AxiosPost (url : string) (body : jsval) (headers : list (string * string))
| SignerSignMessage (msg : jsval)                  (* the wallet's signing prompt *)
| Toast (sev : severity) (msg : string)
| Dispatch (payload : SessionRecord)               (* dispatch(setUser(payload)) *)
| Navigate (route : string)
| SetTimeoutNavigate (ms : nat) (route : string)   (* setTimeout(() => navigate(route), ms) *)
| SetIsWalletConnected (b : bool).

(** [window.ethereum]: an [ExternalProvider], whose [request] is optional;
    for [eth_requestAccounts] it resolves to the array of accounts. *)
Record ExternalProvider : Type := {
  request : option (string -> JsError + list string)
}.

(** The external collaborators. *)
Record Env : Type := {
  signInWithPopup : JsError + UserCredential;
  ethereum : option ExternalProvider;
  hostname : string;                                (* window.location.hostname *)
  origin : string;                                  (* window.location.origin *)
  axios_post : string -> jsval -> JsError + jsval;  (* resolves to [response.data] *)
  signer_signMessage : jsval -> JsError + string
}.

(** The state the hook reads and writes: the redux user slice, the hook's
    own [useState] cell, and the trace of effects. *)
Record World : Type := {
  store : option SessionRecord;
  isWalletConnected : bool;
  events : list event
}.

Definition init (s : option SessionRecord) : World :=
  {| store := s; isWalletConnected := false; events := [] |}.

(** ** The effect monad *)

Definition M (A : Type) : Type := World -> (JsError + A) * World.

Definition ret {A} (a : A) : M A := fun w => (inr a, w).

Definition bind {A B} (m : M A) (k : A -> M B) : M B :=
  fun w =>
    match m w with
    | (inl e, w') => (inl e, w')
    | (inr a, w') => k a w'
    end.

Definition throw {A} (e : JsError) : M A := fun w => (inl e, w).

(** [try { body } catch (e) { handler }] *)
Definition try_catch {A} (body : M A) (handler : JsError -> M A) : M A :=
  fun w =>
    match body w with
    | (inl e, w') => handler e w'
    | (inr a, w') => (inr a, w')
    end.

(** [await] of an oracle's answer. *)
Definition await {A} (r : JsError + A) : M A := fun w => (r, w).

Definition emit (e : event) : M unit :=
  fun w => (inr tt, {| store := store w;
                       isWalletConnected := isWalletConnected w;
                       events := events w ++ [e] |}).

Declare Scope js_scope.
Delimit Scope js_scope with js.
Notation "x <- m ;; k" := (bind m (fun x => k))
  (at level 100, m at next level, right associativity) : js_scope.
Notation "m ;; k" := (bind m (fun _ => k))
  (at level 100, right associativity) : js_scope.
Local Open Scope js_scope.

Definition console_log (args : list logarg) : M unit := emit (ConsoleLog args).
Definition console_error (args : list logarg) : M unit := emit (ConsoleError args).
Definition toast (sev : severity) (msg : string) : M unit := emit (Toast sev msg).
Definition navigate (route : string) : M unit := emit (Navigate route).
Definition setTimeout_navigate (route : string) (ms : nat) : M unit :=
  emit (SetTimeoutNavigate ms route).

(** [dispatch(setUser(p))]: the user slice is replaced by the payload. *)
Definition dispatch_setUser (p : SessionRecord) : M unit :=
  fun w => (inr tt, {| store := Some p;
                       isWalletConnected := isWalletConnected w;
                       events := events w ++ [Dispatch p] |}).

Definition setIsWalletConnected (b : bool) : M unit :=
  fun w => (inr tt, {| store := store w;
                       isWalletConnected := b;
                       events := events w ++ [SetIsWalletConnected b] |}).

Definition METAMASK_BACKEND_URL : string := "http://localhost:3001/metamask".
Definition CLIENT_URL : string := "http://localhost:3000".

(** ** Keccak-256

    The hash [ethers] uses for the address checksum: the sponge over
    Keccak-f[1600] with rate 136 bytes and the original [0x01] padding.  It
    is library code, outside the repository's sources, and the model of the
    hook takes the hash as a parameter; this instance serves to run the
    model on real addresses.  The state is the list of its 25 lanes, lane
    [(x, y)] at index [x + 5 * y]. *)

Module Keccak.
Local Open Scope N_scope.

Definition mask64 : N := 18446744073709551615.

Definition rotl (x : N) (n : N) : N :=
  N.lor (N.land (N.shiftl x n) mask64) (N.shiftr x (64 - n)).

Definition lane (st : list N) (i : nat) : N := nth i st 0.

Definition round_constants : list N :=
  [ 0x0000000000000001; 0x0000000000008082; 0x800000000000808A;
    0x8000000080008000; 0x000000000000808B; 0x0000000080000001;
    0x8000000080008081; 0x8000000000008009; 0x000000000000008A;
    0x0000000000000088; 0x0000000080008009; 0x000000008000000A;
    0x000000008000808B; 0x800000000000008B; 0x8000000000008089;
    0x8000000000008003; 0x8000000000008002; 0x8000000000000080;
    0x000000000000800A; 0x800000008000000A; 0x8000000080008081;
    0x8000000000008080; 0x0000000080000001; 0x8000000080008008 ].

Definition rotation_offsets : list N :=
  [ 0; 1; 62; 28; 27;
    36; 44; 6; 55; 20;
    3; 10; 43; 25; 39;
    41; 45; 15; 21; 8;
    18; 2; 61; 56; 14 ].

Definition theta (st : list N) : list N :=
  let c := map (fun x => fold_left N.lxor
                   (map (fun y => lane st (x + 5 * y)) (seq 0 5)) 0) (seq 0 5) in
  let d := map (fun x => N.lxor (nth ((x + 4) mod 5) c 0)
                                (rotl (nth ((x + 1) mod 5) c 0) 1)) (seq 0 5) in
  map (fun i => N.lxor (lane st i) (nth (i mod 5) d 0)) (seq 0 25).

Definition rho_pi (st : list N) : list N :=
  map (fun j =>
         let X := (j mod 5)%nat in
         let Y := (j / 5)%nat in
         let src := (((X + 3 * Y) mod 5) + 5 * X)%nat in
         rotl (lane st src) (nth src rotation_offsets 0)) (seq 0 25).

Definition chi (st : list N) : list N :=
  map (fun j =>
         let X := (j mod 5)%nat in
         let Y := (j / 5)%nat in
         N.lxor (lane st j)
                (N.ldiff (lane st (((X + 2) mod 5) + 5 * Y))
                         (lane st (((X + 1) mod 5) + 5 * Y)))) (seq 0 25).

Definition iota (rc : N) (st : list N) : list N :=
  match st with
  | [] => []
  | a :: rest => N.lxor a rc :: rest
  end.

Definition keccak_f (st : list N) : list N :=
  fold_left (fun s rc => iota rc (chi (rho_pi (theta s)))) round_constants st.

Definition rate : nat := 136.

(** Eight bytes, least significant first, as a lane. *)
Fixpoint lane_of_bytes (bs : list N) : N :=
  match bs with
  | [] => 0
  | b :: rest => b + 256 * lane_of_bytes rest
  end.

Fixpoint bytes_of_lane (n : nat) (x : N) : list N :=
  match n with
  | O => []
  | S n' => (x mod 256) :: bytes_of_lane n' (x / 256)
  end.

Fixpoint lanes_of_bytes (n : nat) (bs : list N) : list N :=
  match n with
  | O => []
  | S n' => lane_of_bytes (firstn 8 bs) :: lanes_of_bytes n' (skipn 8 bs)
  end.

Definition pad (msg : list N) : list N :=
  let q := (rate - (length msg mod rate))%nat in
  if Nat.eqb q 1 then msg ++ [0x81]
  else msg ++ [0x01] ++ repeat 0 (q - 2) ++ [0x80].

Fixpoint absorb (blocks : nat) (bs : list N) (st : list N) : list N :=
  match blocks with
  | O => st
  | S n =>
      let block := lanes_of_bytes 25 (firstn rate bs) in
      absorb n (skipn rate bs)
             (keccak_f (map (fun i => N.lxor (lane st i) (lane block i)) (seq 0 25)))
  end.

Definition keccak256_bytes (msg : list N) : list N :=
  let padded := pad msg in
  let st := absorb (length padded / rate) padded (repeat 0 25) in
  flat_map (bytes_of_lane 8) (firstn 4 st).

Definition keccak256 (s : string) : list N :=
  keccak256_bytes (map N_of_ascii (list_ascii_of_string s)).
End Keccak.

Section UseAuth.

(** ** Address normalisation: [ethers.utils.getAddress] *)

(** The hash of the checksum: the digest bytes of the ASCII bytes of its
    argument.  Nothing below depends on which hash it is. *)
Variable keccak256 : string -> list N.

(** The ICAP (direct mode) branch of [getAddress] together with its final
    throw: on a well-formed ICAP address with a good checksum, its base-16
    digits padded to 40; an error on every other string. *)
Variable icap_decode : string -> JsError + string.

Definition in_range (lo hi c : ascii) : bool :=
  (N_of_ascii lo <=? N_of_ascii c)%N && (N_of_ascii c <=? N_of_ascii hi)%N.

(** [[0-9a-fA-F]] *)
Definition is_hex (c : ascii) : bool :=
  in_range "0" "9" c || in_range "a" "f" c || in_range "A" "F" c.

Definition toLowerCase_char (c : ascii) : ascii :=
  if in_range "A" "Z" c then ascii_of_N (N_of_ascii c + 32) else c.

Definition toUpperCase_char (c : ascii) : ascii :=
  if in_range "a" "z" c then ascii_of_N (N_of_ascii c - 32) else c.

Definition toLowerCase (s : string) : string :=
  string_of_list_ascii (map toLowerCase_char (list_ascii_of_string s)).

(** [isHexString("0x" + body, 20)] *)
Definition is_hex40 (body : string) : bool :=
  Nat.eqb (String.length body) 40 && forallb is_hex (list_ascii_of_string body).

(** The rest of a string that starts with [0x]. *)
Definition strip_0x (s : string) : option string :=
  match s with
  | String "0" (String "x" body) => Some body
  | _ => None
  end.

(** [/^(0x)?[0-9a-fA-F]{40}$/] *)
Definition matches_hex_address (s : string) : bool :=
  match strip_0x s with
  | Some body => is_hex40 body
  | None => is_hex40 s
  end.

(** [/([A-F].*[a-f])|([a-f].*[A-F])/], on a string without line breaks:
    an upper-case and a lower-case hex letter both occur. *)
Definition mixed_case (s : string) : bool :=
  existsb (in_range "A" "F") (list_ascii_of_string s)
  && existsb (in_range "a" "f") (list_ascii_of_string s).

(** The [i]-th half-byte of the digest, high half first. *)
Definition nibble (hashed : list N) (i : nat) : N :=
  let b := nth (Nat.div2 i) hashed 0%N in
  if Nat.even i then N.shiftr b 4 else N.land b 15.

(** The loop of [getChecksumAddress]: character [i] is upper-cased when
    half-byte [i] of the digest is at least 8. *)
Fixpoint checksum_chars (hashed : list N) (i : nat) (chars : list ascii)
  : list ascii :=
  match chars with
  | [] => []
  | c :: rest =>
      (if (8 <=? nibble hashed i)%N then toUpperCase_char c else c)
        :: checksum_chars hashed (S i) rest
  end.

Definition invalid_address : JsError := Js.Error "invalid address".
Definition bad_address_checksum : JsError := Js.Error "bad address checksum".

Definition getChecksumAddress (address : string) : JsError + string :=
  match strip_0x address with
  | Some body =>
      if is_hex40 body then
        let chars := toLowerCase body in
        let hashed := keccak256 chars in
        inr ("0x" ++ string_of_list_ascii
                       (checksum_chars hashed 0 (list_ascii_of_string chars)))%string
      else inl invalid_address
  | None => inl invalid_address
  end.

(** Modelled from the spec: [ethers.utils.getAddress] is library code and
    is not part of the repository's sources; the spec has the Wallet
    Connector normalise "the returned address to canonical checksummed
    form", the "mixed-case textual encoding of a wallet address".  This is
    that encoding as the library computes it: a 40-digit hexadecimal
    address, with or without the [0x] prefix, is lower-cased and each
    letter is upper-cased according to the digest of the lower-case
    digits; an input that already mixes cases must agree with the result. *)
Definition getAddress (address : string) : JsError + string :=
  if matches_hex_address address then
    let address :=
      if String.eqb (substring 0 2 address) "0x" then address
      else ("0x" ++ address)%string in
    match getChecksumAddress address with
    | inl e => inl e
    | inr result =>
        if mixed_case address && negb (String.eqb result address)
        then inl bad_address_checksum
        else inr result
    end
  else
    match icap_decode address with
    | inl e => inl e
    | inr digits => getChecksumAddress ("0x" ++ digits)%string
    end.

(** [getAddress(userAddress)] for the first element of the destructured
    accounts array: [undefined] is not a string. *)
Definition getAddress_of (userAddress : option string) : JsError + string :=
  match userAddress with
  | Some a => getAddress a
  | None => inl invalid_address
  end.

(** ** The hook *)

Variable env : Env.

Definition default_google_avatar : string :=
  "https://cdn-icons-png.flaticon.com/128/3177/3177440.png".

(** [window.ethereum && typeof window.ethereum.request !== "undefined"] *)
Definition ethereum_request : option (string -> JsError + list string) :=
  match ethereum env with
  | Some provider => request provider
  | None => None
  end.

(** [window.ethereum.request({ method })] *)
Definition window_ethereum_request
    (req : string -> JsError + list string) (method : string)
  : M (list string) :=
  emit (EthereumRequest method) ;;
  await (req method).

(** The session record of the federated identity, with or without a
    wallet address. *)
Definition google_session (u : FirebaseUser) (wallet : option string)
    (tok : string) : SessionRecord :=
  {| session_user :=
       {| name := or_else (displayName u) "User";
          avatar := or_else (photoURL u) default_google_avatar;
          walletAddress := wallet |};
     token := tok |}.

Definition handleGoogleAuth : M unit :=
  try_catch
    (console_log [LStr "Google Auth Provider initialized"] ;;
     emit SignInWithPopup ;;
     result <- await (signInWithPopup env) ;;
     let credential := credentialFromResult result in
     let token :=
       match credential with Some c => accessToken c | None => None end in
     let user := user result in
     if negb (truthy_str token) then
       toast Error "Failed to get authentication token"
     else
       let token := str_of token in
       (console_log [LStr "Google sign-in successful:"; LUser user] ;;
         match ethereum_request with
         | Some req =>
             try_catch
               (accounts <- window_ethereum_request req "eth_requestAccounts" ;;
                let userAddress := hd_error accounts in
                setIsWalletConnected true ;;
                address <- await (getAddress_of userAddress) ;;
                dispatch_setUser (google_session user (Some address) token) ;;
                toast Success "Successfully authenticated with Google and MetaMask!" ;;
                navigate "/home")
               (fun walletError =>
                  console_error [LStr "Wallet connection failed:"; LErr walletError] ;;
                  toast Error "Failed to connect wallet. Please try again." ;;
                  dispatch_setUser (google_session user None token) ;;
                  navigate "/home")
         | None =>
             toast Warn "MetaMask is not installed. Continuing without wallet connection." ;;
             dispatch_setUser (google_session user None token) ;;
             navigate "/home"
         end))
    (fun err =>
       console_error [LStr "Google authentication failed:"; LErr err] ;;
       let errorCode := code err in
       let errorMessage := message err in
       if strict_eq_str errorCode "auth/popup-closed-by-user" then
         toast Info "Sign-in was cancelled"
       else if strict_eq_str errorCode "auth/network-request-failed" then
         toast Error "Network error. Please check your connection."
       else
         toast Error ("Authentication failed: " ++ errorMessage)%string).

Definition getSiweMessage (address : string) : M jsval :=
  try_catch
    (let url := (METAMASK_BACKEND_URL ++ "/message")%string in
     let body :=
       JObj [("address", JStr address);
             ("domain", JStr (str_or (hostname env) "localhost"));
             ("uri", JStr (str_or (origin env) CLIENT_URL))] in
     emit (AxiosPost url body [("Content-Type", "application/json")]) ;;
     data <- await (axios_post env url body) ;;
     ret data)
    (fun err =>
       toast Error "Failed to authenticate with MetaMask. Please try again." ;;
       match response err with
       | Some data => console_error [LVal data]
       | None =>
           console_error [LStr "Error fetching SIWE message:"; LStr (message err)]
       end ;;
       ret JUndefined).

(** [new ethers.providers.Web3Provider(window.ethereum)] throws on a
    missing provider. *)
Definition Web3Provider : M unit :=
  match ethereum env with
  | Some _ => ret tt
  | None => throw (Js.Error "missing provider")
  end.

Definition signMessage (message : jsval) : M (option string) :=
  try_catch
    (Web3Provider ;;
     emit (SignerSignMessage message) ;;
     signature <- await (signer_signMessage env message) ;;
     ret (Some signature))
    (fun error =>
       console_error [LStr "Failed to sign message:"; LErr error] ;;
       toast Error "Failed to sign message. Please try again." ;;
       ret None).

Definition wallet_session (address : string) : SessionRecord :=
  {| session_user :=
       {| name := "Anonymous";
          avatar := "https://cdn-icons-png.flaticon.com/128/10/10960.png";
          walletAddress := Some address |};
     token := "jadfkklakssl" |}.

Definition verifySignature (address : string) (message : jsval)
    (signature : string) : M unit :=
  try_catch
    (let url := (METAMASK_BACKEND_URL ++ "/verify")%string in
     let body := JObj [("message", message); ("signature", JStr signature)] in
     emit (AxiosPost url body []) ;;
     data <- await (axios_post env url body) ;;
     success <- match get data "success" with
                | Some v => ret v
                | None => throw (Js.TypeError "Cannot read properties of undefined")
                end ;;
     if truthy success then
       toast Success "Successfully authenticated with MetaMask!" ;;
       dispatch_setUser (wallet_session address) ;;
       setTimeout_navigate "/home" 2000
     else
       toast Error "Authentication failed!")
    (fun error =>
       console_error [LStr "Verification failed:"; LErr error] ;;
       toast Error "Verification failed. Please try again.").

Definition handleMetaMaskLogin (address : string) : M unit :=
  try_catch
    (message <- getSiweMessage address ;;
     if negb (truthy message) then throw (Js.Error "Message generation failed")
     else
       (signature <- signMessage message ;;
        if negb (truthy_str signature) then throw (Js.Error "Signature is required")
        else verifySignature address message (str_of signature)))
    (fun error =>
       console_error [LStr "Login failed:"; LErr error] ;;
       toast Error "MetaMask login failed. Please try again.").

Definition connectWallet : M unit :=
  try_catch
    (match ethereum_request with
     | Some req =>
         accounts <- window_ethereum_request req "eth_requestAccounts" ;;
         let userAddress := hd_error accounts in
         setIsWalletConnected true ;;
         address <- await (getAddress_of userAddress) ;;
         handleMetaMaskLogin address
     | None =>
         toast Warn "MetaMask is not installed. Please install MetaMask to sign-up successfully."
     end)
    (fun err =>
       console_error [LStr "Failed to connect MetaMask and login:"; LErr err] ;;
       toast Error "Failed to connect wallet. Please try again.").

End UseAuth.

Arguments getAddress_of : simpl never.
Arguments getAddress : simpl never.

(** ** Running a flow and observing its trace *)

Definition exec {A} (m : M A) (w : World) : World := snd (m w).
Definition result {A} (m : M A) (w : World) : JsError + A := fst (m w).

(** The world after further effects that leave the state alone. *)
Definition log (w : World) (es : list event) : World :=
  {| store := store w;
     isWalletConnected := isWalletConnected w;
     events := events w ++ es |}.

(** The session records published to the store, oldest first. *)
Fixpoint published (tr : list event) : list SessionRecord :=
  match tr with
  | [] => []
  | Dispatch p :: rest => p :: published rest
  | _ :: rest => published rest
  end.

Definition is_navigation (e : event) : bool :=
  match e with
  | Navigate _ | SetTimeoutNavigate _ _ => true
  | _ => false
  end.

Definition is_dispatch (e : event) : bool :=
  match e with
  | Dispatch _ => true
  | _ => false
  end.

(** The routes navigated to, immediately or from a timer. *)
Fixpoint navigations (tr : list event) : list string :=
  match tr with
  | [] => []
  | Navigate r :: rest => r :: navigations rest
  | SetTimeoutNavigate _ r :: rest => r :: navigations rest
  | _ :: rest => navigations rest
  end.

(** What the notification sink received. *)
Fixpoint notifications (tr : list event) : list (severity * string) :=
  match tr with
  | [] => []
  | Toast sev msg :: rest => (sev, msg) :: notifications rest
  | _ :: rest => notifications rest
  end.

(** The requests sent to the authentication service. *)
Fixpoint http_requests (tr : list event) : list (string * jsval) :=
  match tr with
  | [] => []
  | AxiosPost url body _ :: rest => (url, body) :: http_requests rest
  | _ :: rest => http_requests rest
  end.

(** The messages the wallet was asked to sign. *)
Fixpoint sign_requests (tr : list event) : list jsval :=
  match tr with
  | [] => []
  | SignerSignMessage m :: rest => m :: sign_requests rest
  | _ :: rest => sign_requests rest
  end.

(** The checker behind "navigation only after publication": scanning the
    trace, no navigation is met before the first [Dispatch]. *)
Fixpoint navigates_after_publish (seen : bool) (tr : list event) : bool :=
  match tr with
  | [] => true
  | e :: rest =>
      if is_navigation e then seen && navigates_after_publish seen rest
      else navigates_after_publish (seen || is_dispatch e) rest
  end.

(** Every navigation of the trace has a [Dispatch] before it. *)
Definition navigation_follows_publish (tr : list event) : Prop :=
  forall before e after,
    tr = before ++ e :: after ->
    is_navigation e = true ->
    exists p, In (Dispatch p) before.

(** Effects of a flow other than logging, prompting the federated provider
    and notifying. *)
Definition is_report (e : event) : bool :=
  match e with
  | ConsoleLog _ | ConsoleError _ | SignInWithPopup | Toast _ _ => true
  | _ => false
  end.

(** The access token the hook reads off a sign-in result:
    [credential?.accessToken]. *)
Definition access_token (r : UserCredential) : option string :=
  match credentialFromResult r with
  | Some c => accessToken c
  | None => None
  end.

(** The ways the wallet step of a flow can fail to yield an address. *)
Inductive wallet_fails (keccak256 : string -> list N)
    (icap_decode : string -> JsError + string) (env : Env) : Prop :=
| wallet_absent :
    ethereum_request env = None ->
    wallet_fails keccak256 icap_decode env
| wallet_rejected req e :
    ethereum_request env = Some req ->
    req "eth_requestAccounts" = inl e ->
    wallet_fails keccak256 icap_decode env
| wallet_bad_address req accounts e :
    ethereum_request env = Some req ->
    req "eth_requestAccounts" = inr accounts ->
    getAddress_of keccak256 icap_decode (hd_error accounts) = inl e ->
    wallet_fails keccak256 icap_decode env.

(** The wallet step yields the normalised address [address]. *)
Definition wallet_connects (keccak256 : string -> list N)
    (icap_decode : string -> JsError + string) (env : Env)
    (address : string) : Prop :=
  exists req accounts,
    ethereum_request env = Some req /\
    req "eth_requestAccounts" = inr accounts /\
    getAddress_of keccak256 icap_decode (hd_error accounts) = inr address.

(** What a flow leaves behind for the rest of the application: how it
    returned, the store, the records published and the navigations. *)
Definition outcome {A} (m : M A) (w : World)
  : (JsError + A) * option SessionRecord * list SessionRecord * list string :=
  (result m w, store (exec m w),
   published (events (exec m w)), navigations (events (exec m w))).

(** ** Concrete collaborators, to run the flows *)

Module Example.

Definition alice : FirebaseUser :=
  {| displayName := Some "Alice";
     photoURL := Some "https://example.org/alice.png" |}.

Definition google_ok : JsError + UserCredential :=
  inr {| user := alice;
         credentialFromResult := Some {| accessToken := Some "ya29.a0Af" |} |}.

(** The credential carries no access token. *)
Definition google_no_token : JsError + UserCredential :=
  inr {| user := alice;
         credentialFromResult := Some {| accessToken := None |} |}.

Definition popup_closed : JsError :=
  mkError (JStr "auth/popup-closed-by-user")
          "Firebase: Error (auth/popup-closed-by-user)." None.

Definition user_rejected : JsError :=
  mkError (JNum 4001) "User rejected the request." None.

Definition network_error : JsError :=
  mkError (JStr "ERR_NETWORK") "Network Error" None.

(** A wallet whose [request] answers [answer]. *)
Definition metamask (answer : JsError + list string) : ExternalProvider :=
  {| request := Some (fun _ => answer) |}.

Definition account : string := "0x5aaeb6053f3e94c9b9a09f33669435e7ef1beaed".
Definition account_checksummed : string :=
  "0x5aAeb6053F3E94C9b9A09f33669435E7Ef1BeAed".

Definition challenge : jsval :=
  JStr "localhost wants you to sign in with your Ethereum account".

Definition signature : string := "0x1b2c3d".

(** An authentication service that issues [challenge] and answers every
    verification with [verdict]. *)
Definition service (verdict : bool) (url : string) (body : jsval)
  : JsError + jsval :=
  if String.eqb url "http://localhost:3001/metamask/message"
  then inr challenge
  else inr (JObj [("success", JBool verdict)]).

(** An authentication service that cannot be reached. *)
Definition service_down (url : string) (body : jsval) : JsError + jsval :=
  inl network_error.

(** No ICAP input is accepted. *)
Definition no_icap (address : string) : JsError + string :=
  inl (Js.Error "invalid address").

Definition make_env (google : JsError + UserCredential)
    (wallet : option ExternalProvider)
    (post : string -> jsval -> JsError + jsval) : Env :=
  {| signInWithPopup := google;
     ethereum := wallet;
     hostname := "localhost";
     origin := "http://localhost:3000";
     axios_post := post;
     signer_signMessage := fun _ => inr signature |}.

(** Google signs in, the wallet hands out [account], the verifier would
    deny any signature. *)
Definition env_linked : Env :=
  make_env google_ok (Some (metamask (inr [account]))) (service false).

(** Google signs in, the user declines the account-access prompt. *)
Definition env_declined : Env :=
  make_env google_ok (Some (metamask (inl user_rejected))) (service true).

(** Google signs in, no wallet is injected. *)
Definition env_no_wallet : Env :=
  make_env google_ok None (service true).

(** The user closes the Google popup. *)
Definition env_popup_closed : Env :=
  make_env (inl popup_closed) (Some (metamask (inr [account]))) (service true).

(** The wallet hands out [account] and signs; the verifier answers
    [verdict]. *)
Definition env_wallet (verdict : bool) : Env :=
  make_env (inl popup_closed) (Some (metamask (inr [account]))) (service verdict).

(** The wallet hands out [account]; the service is unreachable. *)
Definition env_service_down : Env :=
  make_env (inl popup_closed) (Some (metamask (inr [account]))) service_down.

End Example.

(** ** Further collaborators: the failing steps of the wallet flow *)

Module Scenario.
Import Example.

(** [env] with another signer. *)
Definition with_signer (env : Env) (sign : jsval -> JsError + string) : Env :=
  {| signInWithPopup := signInWithPopup env;
     ethereum := ethereum env;
     hostname := hostname env;
     origin := origin env;
     axios_post := axios_post env;
     signer_signMessage := sign |}.

(** The user declines the signing prompt. *)
Definition env_signing_rejected : Env :=
  with_signer (env_wallet true) (fun _ => inl user_rejected).

(** The wallet returns an empty signature. *)
Definition env_empty_signature : Env :=
  with_signer (env_wallet true) (fun _ => inr "").

(** A service that issues [challenge] and answers [verdict] to a
    verification. *)
Definition service_answering (verdict : JsError + jsval) (url : string)
    (body : jsval) : JsError + jsval :=
  if String.eqb url "http://localhost:3001/metamask/message"
  then inr challenge
  else verdict.

(** The verification endpoint is unreachable. *)
Definition env_verify_down : Env :=
  make_env (inl popup_closed) (Some (metamask (inr [account])))
           (service_answering (inl network_error)).

(** The verification endpoint answers [{success: "false"}], a string. *)
Definition env_verdict_string : Env :=
  make_env (inl popup_closed) (Some (metamask (inr [account])))
           (service_answering (inr (JObj [("success", JStr "false")]))).

(** The challenge endpoint answers with an empty body. *)
Definition env_empty_challenge : Env :=
  make_env (inl popup_closed) (Some (metamask (inr [account])))
           (fun _ _ => inr (JStr "")).

(** The wallet grants an account that is not a valid address. *)
Definition env_bad_account : Env :=
  make_env google_ok (Some (metamask (inr ["0x1234"]))) (service true).

(** A state in which an earlier run connected the wallet. *)
Definition connected_before : World :=
  {| store := None; isWalletConnected := true; events := [] |}.

End Scenario.

(** ** The requests and the reports of the protocol *)

(** The challenge request for [address], as [getSiweMessage] sends it. *)
Definition challenge_request (env : Env) (address : string) : string * jsval :=
  ("http://localhost:3001/metamask/message",
   JObj [("address", JStr address);
         ("domain", JStr (str_or (hostname env) "localhost"));
         ("uri", JStr (str_or (origin env) "http://localhost:3000"))]).

(** The verification request, as [verifySignature] sends it. *)
Definition verify_request (message : jsval) (signature : string)
  : string * jsval :=
  ("http://localhost:3001/metamask/verify",
   JObj [("message", message); ("signature", JStr signature)]).

(** What the authentication service answers to a request. *)
Definition answer (env : Env) (req : string * jsval) : JsError + jsval :=
  axios_post env (fst req) (snd req).

(** The toasts with which the hook reports the failures of the wallet
    steps, each named after the failure it reports. *)

(** The [catch] of [getSiweMessage]. *)
Definition ChallengeRequestFailed : severity * string :=
  (Error, "Failed to authenticate with MetaMask. Please try again.").
(** The [else] of [verifySignature]. *)
Definition VerificationDenied : severity * string :=
  (Error, "Authentication failed!").
(** The [catch] of [handleMetaMaskLogin]. *)
Definition LoginFailed : severity * string :=
  (Error, "MetaMask login failed. Please try again.").
(** The [else] of [handleGoogleAuth]: no usable provider. *)
Definition WalletUnavailable : severity * string :=
  (Warn, "MetaMask is not installed. Continuing without wallet connection.").
(** The inner [catch] of [handleGoogleAuth]. *)
Definition WalletError : severity * string :=
  (Error, "Failed to connect wallet. Please try again.").

Definition severity_eqb (a b : severity) : bool :=
  match a, b with
  | Success, Success | Error, Error | Warn, Warn | Info, Info => true
  | _, _ => false
  end.

Definition notice_eqb (a b : severity * string) : bool :=
  severity_eqb (fst a) (fst b) && String.eqb (snd a) (snd b).

(** How many times [n] was reported. *)
Definition reported (n : severity * string) (tr : list event) : nat :=
  length (filter (notice_eqb n) (notifications tr)).

(** The federated step fails: the popup rejects, or the credential yields
    no usable access token. *)
Definition federated_fails (env : Env) : Prop :=
  (exists e, signInWithPopup env = inl e) \/
  (exists cred, signInWithPopup env = inr cred /\
                truthy_str (access_token cred) = false).

(** The [catch] of [signMessage]. *)
Definition SigningFailed : severity * string :=
  (Error, "Failed to sign message. Please try again.").
(** The [catch] of [verifySignature]. *)
Definition VerificationRequestFailed : severity * string :=
  (Error, "Verification failed. Please try again.").

Definition is_success (n : severity * string) : bool :=
  match fst n with
  | Success => true
  | _ => false
  end.

Definition is_info (n : severity * string) : bool :=
  match fst n with
  | Info => true
  | _ => false
  end.

Definition has_wallet (r : SessionRecord) : bool :=
  match walletAddress (session_user r) with
  | Some _ => true
  | None => false
  end.

(** No field of the record is the empty string. *)
Definition filled (r : SessionRecord) : bool :=
  negb (String.eqb (name (session_user r)) "")
  && negb (String.eqb (avatar (session_user r)) "")
  && negb (String.eqb (token r) "").

(** The wallet answered the account request with an array of accounts. *)
Definition accounts_granted (env : Env) : Prop :=
  exists req accounts,
    ethereum_request env = Some req /\
    req "eth_requestAccounts" = inr accounts.

(** The federated step yields a usable access token. *)
Definition federated_succeeds (env : Env) : Prop :=
  exists cred,
    signInWithPopup env = inr cred /\ truthy_str (access_token cred) = true.

(** * Properties *)

Ltac run :=
  unfold outcome, exec, result, handleGoogleAuth, connectWallet,
    handleMetaMaskLogin, verifySignature, signMessage, getSiweMessage,
    Web3Provider, window_ethereum_request, try_catch, bind, ret, throw,
    await, console_log, console_error, toast, navigate, setTimeout_navigate,
    dispatch_setUser, setIsWalletConnected, emit, init,
    METAMASK_BACKEND_URL, CLIENT_URL;
  cbn.

(** Case analysis on the innermost undecided scrutinee of the goal. *)
Ltac split_run :=
  repeat (match goal with
          | |- context [match ?x with _ => _ end] =>
              lazymatch x with
              | context [match _ with _ => _ end] => fail
              | _ => destruct x eqn:?
              end
          end; cbn).

(** Follow the path the hypotheses on the collaborators select. *)
Ltac follow :=
  repeat (match goal with
          | H : _ = _ |- _ => rewrite H
          end; cbn).

Lemma truthy_str_some (t : string) : t <> "" -> truthy_str (Some t) = true.
Proof.
  intros Ht. unfold truthy_str.
  destruct (String.eqb t "") eqn:E; [apply String.eqb_eq in E; contradiction | reflexivity].
Qed.

Lemma or_else_some (t d : string) : t <> "" -> or_else (Some t) d = t.
Proof.
  intros Ht. unfold or_else. now rewrite truthy_str_some.
Qed.

Lemma navigates_after_publish_sound (tr : list event) :
  forall seen,
    navigates_after_publish seen tr = true ->
    forall before e after,
      tr = before ++ e :: after ->
      is_navigation e = true ->
      seen = true \/ exists p, In (Dispatch p) before.
Proof.
  induction tr as [|x tr IH]; intros seen Hchk before e after Heq Hnav.
  - destruct before; discriminate.
  - destruct before as [|b before]; cbn in Heq; injection Heq as Hx Ht; subst x tr.
    + cbn in Hchk. rewrite Hnav in Hchk.
      apply andb_prop in Hchk. now left.
    + cbn in Hchk. destruct (is_navigation b) eqn:Hb.
      * apply andb_prop in Hchk as [Hseen Hrest].
        destruct (IH _ Hrest _ _ _ eq_refl Hnav) as [?|[p Hp]]; [now left|].
        right. exists p. now right.
      * destruct (IH _ Hchk _ _ _ eq_refl Hnav) as [Hs|[p Hp]].
        -- apply orb_prop in Hs as [Hs|Hs]; [now left|].
           right. destruct b; try discriminate. eexists. left. reflexivity.
        -- right. exists p. now right.
Qed.

Lemma navigates_after_publish_follows (tr : list event) :
  navigates_after_publish false tr = true -> navigation_follows_publish tr.
Proof.
  intros Hchk before e after Heq Hnav.
  destruct (navigates_after_publish_sound tr false Hchk before e after Heq Hnav)
    as [?|?]; [discriminate | assumption].
Qed.

Section Flows.

Variable keccak256 : string -> list N.
Variable icap_decode : string -> JsError + string.
Variable env : Env.
Variable s : option SessionRecord.

Lemma handleGoogleAuth_checked :
  navigates_after_publish false
    (events (exec (handleGoogleAuth keccak256 icap_decode env) (init s))) = true.
Proof. run. split_run; reflexivity. Qed.

Lemma connectWallet_checked :
  navigates_after_publish false
    (events (exec (connectWallet keccak256 icap_decode env) (init s))) = true.
Proof. run. split_run; reflexivity. Qed.

(** C7. In both flows every navigation to the authenticated area, whether
    immediate or scheduled on a timer, comes after a [Dispatch] of a
    session record in the trace of the same run: no path of
    [handleGoogleAuth] or [connectWallet] navigates without having
    published first. *)
Theorem navigation_only_after_publish :
  navigation_follows_publish
    (events (exec (handleGoogleAuth keccak256 icap_decode env) (init s))) /\
  navigation_follows_publish
    (events (exec (connectWallet keccak256 icap_decode env) (init s))).
Proof.
  split; apply navigates_after_publish_follows.
  - apply handleGoogleAuth_checked.
  - apply connectWallet_checked.
Qed.

(** The federated step succeeded with token [tok]. *)
Lemma federated_token cred tok :
  access_token cred = Some tok -> tok <> "" ->
  truthy_str match credentialFromResult cred with
             | Some c => accessToken c
             | None => None
             end = true /\
  str_of match credentialFromResult cred with
         | Some c => accessToken c
         | None => None
         end = tok.
Proof.
  unfold access_token. intros -> Ht. split; [now apply truthy_str_some | reflexivity].
Qed.

Lemma strict_eq_str_neq (v : jsval) (t : string) :
  v <> JStr t -> strict_eq_str v t = false.
Proof.
  intros Hv. destruct v as [| |b|n|u|items|fields]; try reflexivity.
  cbn. apply String.eqb_neq. intros ->. now apply Hv.
Qed.

(** C10. When the federated step fails (the popup rejects, whatever the
    error code, or the credential has no usable access token),
    [handleGoogleAuth] returns normally, leaves the store and
    [isWalletConnected] as they were, publishes nothing and navigates
    nowhere; apart from logging, its only effect is the single toast that
    reports the failure: [Sign-in was cancelled] (information) when the
    popup was closed by the user, the network error toast on a network
    failure, [Authentication failed: ] followed by the message of the
    error on any other rejection, and [Failed to get authentication token]
    when the sign-in resolved without a usable token. *)
Theorem federated_failure_leaves_session :
  federated_fails env ->
  let w := exec (handleGoogleAuth keccak256 icap_decode env) (init s) in
  result (handleGoogleAuth keccak256 icap_decode env) (init s) = inr tt /\
  store w = s /\
  isWalletConnected w = false /\
  published (events w) = [] /\
  navigations (events w) = [] /\
  forallb is_report (events w) = true /\
  (exists sev msg, notifications (events w) = [(sev, msg)]) /\
  (forall e,
      signInWithPopup env = inl e ->
      code e = JStr "auth/popup-closed-by-user" ->
      notifications (events w) = [(Info, "Sign-in was cancelled")]) /\
  (forall e,
      signInWithPopup env = inl e ->
      code e = JStr "auth/network-request-failed" ->
      notifications (events w)
      = [(Error, "Network error. Please check your connection.")]) /\
  (forall e,
      signInWithPopup env = inl e ->
      code e <> JStr "auth/popup-closed-by-user" ->
      code e <> JStr "auth/network-request-failed" ->
      notifications (events w)
      = [(Error, ("Authentication failed: " ++ message e)%string)]) /\
  (forall cred,
      signInWithPopup env = inr cred ->
      notifications (events w) = [(Error, "Failed to get authentication token")]).
Proof.
  intros Hfail.
  assert (Hbase :
            result (handleGoogleAuth keccak256 icap_decode env) (init s) = inr tt /\
            store (exec (handleGoogleAuth keccak256 icap_decode env) (init s)) = s /\
            isWalletConnected
              (exec (handleGoogleAuth keccak256 icap_decode env) (init s)) = false /\
            published
              (events (exec (handleGoogleAuth keccak256 icap_decode env) (init s))) = [] /\
            navigations
              (events (exec (handleGoogleAuth keccak256 icap_decode env) (init s))) = [] /\
            forallb is_report
              (events (exec (handleGoogleAuth keccak256 icap_decode env) (init s))) = true /\
            exists sev msg,
              notifications
                (events (exec (handleGoogleAuth keccak256 icap_decode env) (init s)))
              = [(sev, msg)]).
  { destruct Hfail as [[e He] | [cred [Hc Htok]]]; run; rewrite ?He, ?Hc; cbn.
    - split_run; repeat split; eauto.
    - unfold access_token in Htok. rewrite Htok. cbn. repeat split; eauto. }
  cbn zeta.
  destruct Hbase as (H1 & H2 & H3 & H4 & H5 & H6 & H7).
  repeat (split; [assumption|]).
  split; [|split; [|split]].
  - intros e He Hcode. run. rewrite He. cbn. rewrite Hcode. reflexivity.
  - intros e He Hcode. run. rewrite He. cbn. rewrite Hcode. reflexivity.
  - intros e He Hp Hn. run. rewrite He. cbn.
    rewrite (strict_eq_str_neq _ _ Hp), (strict_eq_str_neq _ _ Hn). reflexivity.
  - intros cred Hc.
    destruct Hfail as [[e He] | [cred' [Hc' Htok]]]; [congruence|].
    rewrite Hc in Hc'. injection Hc' as <-.
    run. rewrite Hc. cbn. unfold access_token in Htok. rewrite Htok. reflexivity.
Qed.

(** C6. When the federated step succeeds and the wallet step does not
    yield an address (no provider, the account request rejected, or the
    returned account not a valid address), [handleGoogleAuth] returns
    normally, having published exactly the federated record and navigated
    to [/home].  The record carries the display name and the picture of
    the federated user whenever they are non-empty (the defaults [User]
    and the stock picture stand in for a missing or empty one), the access
    token, and no [walletAddress].  The only notification is the notice of
    the wallet step: the warning that MetaMask is not installed when no
    provider is present, the error toast [Failed to connect wallet] when a
    provider is present and the step fails (a declined prompt included);
    no federated failure is reported.  The outcome, that is how the flow
    returns, the store, the records published and the navigations, does
    not depend on how the wallet step failed: any environment with the
    same federated result and a failing wallet step, a declined prompt as
    much as an absent provider, has the same outcome (the notice is not
    part of it and differs as said); and when no account was returned
    [isWalletConnected] stays false. *)
Theorem combined_flow_survives_wallet_failure cred tok :
  signInWithPopup env = inr cred ->
  access_token cred = Some tok ->
  tok <> "" ->
  wallet_fails keccak256 icap_decode env ->
  let w := exec (handleGoogleAuth keccak256 icap_decode env) (init s) in
  let fed := google_session (user cred) None tok in
  outcome (handleGoogleAuth keccak256 icap_decode env) (init s)
    = (inr tt, Some fed, [fed], ["/home"]) /\
  name (session_user fed) = or_else (displayName (user cred)) "User" /\
  avatar (session_user fed)
    = or_else (photoURL (user cred)) default_google_avatar /\
  token fed = tok /\
  walletAddress (session_user fed) = None /\
  (notifications (events w) = [WalletUnavailable] \/
   notifications (events w) = [WalletError]) /\
  (forall env',
      signInWithPopup env' = signInWithPopup env ->
      wallet_fails keccak256 icap_decode env' ->
      outcome (handleGoogleAuth keccak256 icap_decode env') (init s)
      = outcome (handleGoogleAuth keccak256 icap_decode env) (init s)) /\
  ((ethereum_request env = None \/
    exists req e, ethereum_request env = Some req /\
                  req "eth_requestAccounts" = inl e) ->
   isWalletConnected w = false) /\
  (forall n, displayName (user cred) = Some n -> n <> "" ->
             name (session_user fed) = n) /\
  (displayName (user cred) = None \/ displayName (user cred) = Some "" ->
   name (session_user fed) = "User") /\
  (forall a, photoURL (user cred) = Some a -> a <> "" ->
             avatar (session_user fed) = a) /\
  (photoURL (user cred) = None \/ photoURL (user cred) = Some "" ->
   avatar (session_user fed)
   = "https://cdn-icons-png.flaticon.com/128/3177/3177440.png") /\
  (ethereum_request env = None ->
   notifications (events w)
   = [(Warn, "MetaMask is not installed. Continuing without wallet connection.")]) /\
  (forall req, ethereum_request env = Some req ->
   notifications (events w)
   = [(Error, "Failed to connect wallet. Please try again.")]).
Proof.
  intros Hc Htok Hne Hfail.
  destruct (federated_token cred tok Htok Hne) as [Ht Hs].
  assert (Hout : forall env0,
             signInWithPopup env0 = inr cred ->
             wallet_fails keccak256 icap_decode env0 ->
             outcome (handleGoogleAuth keccak256 icap_decode env0) (init s)
             = (inr tt, Some (google_session (user cred) None tok),
                [google_session (user cred) None tok], ["/home"])).
  { intros env0 Hc0 [Habs | req e Hreq He | req accounts e Hreq Hacc Haddr];
      run; follow; reflexivity. }
  cbn zeta. split; [now apply Hout|].
  repeat (split; [reflexivity|]).
  split; [|split; [|split; [|split; [|split; [|split; [|split; [|split]]]]]]].
  - destruct Hfail as [Habs | req e Hreq He | req accounts e Hreq Hacc Haddr];
      run; follow; auto.
  - intros env' Hc' Hfail'. rewrite Hc in Hc'.
    rewrite (Hout env' Hc' Hfail'). symmetry. now apply Hout.
  - intros [Habs | [req [e [Hreq He]]]]; run; follow; reflexivity.
  - intros n Hn Hnn. unfold google_session. cbn [name session_user].
    rewrite Hn. now apply or_else_some.
  - unfold google_session. cbn [name session_user].
    intros [Hn | Hn]; rewrite Hn; reflexivity.
  - intros a Ha Hna. unfold google_session. cbn [avatar session_user].
    rewrite Ha. now apply or_else_some.
  - unfold google_session. cbn [avatar session_user].
    intros [Ha | Ha]; rewrite Ha; reflexivity.
  - intros Habs. run. follow. reflexivity.
  - intros req Hreq.
    destruct Hfail as [Habs | req' e Hreq' He | req' accounts e Hreq' Hacc Haddr].
    + congruence.
    + clear Hreq. run. follow. reflexivity.
    + clear Hreq. run. follow. reflexivity.
Qed.

(** C2. In the combined flow, when the federated step succeeds and the
    wallet step yields the normalised address [address], exactly one
    session record is published: it carries the federated name and
    avatar (the defaults [User] and the stock picture stand in when the
    provider gives none or an empty one), the federated access token, and
    [address] as its [walletAddress].  The
    flow sends nothing to the authentication service, so this holds
    whatever the verifier would answer, a success verdict included. *)
Theorem combined_flow_links_wallet cred tok address :
  signInWithPopup env = inr cred ->
  access_token cred = Some tok ->
  tok <> "" ->
  wallet_connects keccak256 icap_decode env address ->
  let w := exec (handleGoogleAuth keccak256 icap_decode env) (init s) in
  let linked := google_session (user cred) (Some address) tok in
  published (events w) = [linked] /\
  store w = Some linked /\
  name (session_user linked) = or_else (displayName (user cred)) "User" /\
  avatar (session_user linked)
    = or_else (photoURL (user cred)) default_google_avatar /\
  (forall n, displayName (user cred) = Some n -> n <> "" ->
             name (session_user linked) = n) /\
  (forall a, photoURL (user cred) = Some a -> a <> "" ->
             avatar (session_user linked) = a) /\
  token linked = tok /\
  walletAddress (session_user linked) = Some address /\
  result (handleGoogleAuth keccak256 icap_decode env) (init s) = inr tt /\
  events w =
    [ConsoleLog [LStr "Google Auth Provider initialized"];
     SignInWithPopup;
     ConsoleLog [LStr "Google sign-in successful:"; LUser (user cred)];
     EthereumRequest "eth_requestAccounts";
     SetIsWalletConnected true;
     Dispatch linked;
     Toast Success "Successfully authenticated with Google and MetaMask!";
     Navigate "/home"].
Proof.
  intros Hc Htok Hne (req & accounts & Hreq & Hacc & Haddr).
  destruct (federated_token cred tok Htok Hne) as [Ht Hs].
  run. follow. repeat split.
  - intros n Hn Hnn. rewrite Hn. now apply or_else_some.
  - intros a Ha Hna. rewrite Ha. now apply or_else_some.
Qed.

Lemma wallet_provider address :
  wallet_connects keccak256 icap_decode env address ->
  exists provider, ethereum env = Some provider.
Proof.
  intros (req & _ & Hreq & _). unfold ethereum_request in Hreq.
  destruct (ethereum env) as [provider|]; [now exists provider | discriminate].
Qed.

(** *** The steps of the wallet flow, one by one *)

Lemma getSiweMessage_resolves w address message :
  answer env (challenge_request env address) = inr message ->
  getSiweMessage env address w
  = (inr message,
     log w [AxiosPost (fst (challenge_request env address))
                      (snd (challenge_request env address))
                      [("Content-Type", "application/json")]]).
Proof.
  unfold answer, challenge_request. cbn [fst snd]. intros H.
  unfold getSiweMessage, try_catch, bind, await, emit, ret,
    METAMASK_BACKEND_URL, CLIENT_URL.
  cbn. rewrite H. reflexivity.
Qed.

Lemma getSiweMessage_rejects w address err :
  answer env (challenge_request env address) = inl err ->
  getSiweMessage env address w
  = (inr JUndefined,
     log w [AxiosPost (fst (challenge_request env address))
                      (snd (challenge_request env address))
                      [("Content-Type", "application/json")];
            Toast Error "Failed to authenticate with MetaMask. Please try again.";
            ConsoleError
              match response err with
              | Some data => [LVal data]
              | None => [LStr "Error fetching SIWE message:"; LStr (message err)]
              end]).
Proof.
  unfold answer, challenge_request. cbn [fst snd]. intros H.
  unfold getSiweMessage, try_catch, bind, await, emit, ret, toast,
    console_error, METAMASK_BACKEND_URL, CLIENT_URL.
  cbn. rewrite H. unfold log.
  destruct (response err); cbn; rewrite <- !app_assoc; reflexivity.
Qed.

Lemma signMessage_resolves w provider message signature :
  ethereum env = Some provider ->
  signer_signMessage env message = inr signature ->
  signMessage env message w
  = (inr (Some signature), log w [SignerSignMessage message]).
Proof.
  intros Hp H.
  unfold signMessage, Web3Provider, try_catch, bind, await, emit, ret.
  rewrite Hp. cbn. rewrite H. reflexivity.
Qed.

Lemma verifySignature_verdict w address message signature data verdict :
  answer env (verify_request message signature) = inr data ->
  get data "success" = Some verdict ->
  verifySignature env address message signature w
  = if truthy verdict then
      (inr tt,
       {| store := Some (wallet_session address);
          isWalletConnected := isWalletConnected w;
          events :=
            events w ++
            [AxiosPost (fst (verify_request message signature))
                       (snd (verify_request message signature)) [];
             Toast Success "Successfully authenticated with MetaMask!";
             Dispatch (wallet_session address);
             SetTimeoutNavigate 2000 "/home"] |})
    else
      (inr tt,
       log w [AxiosPost (fst (verify_request message signature))
                        (snd (verify_request message signature)) [];
              Toast Error "Authentication failed!"]).
Proof.
  unfold answer, verify_request. cbn [fst snd]. intros H Hget.
  unfold verifySignature, try_catch, bind, await, emit, ret, throw, toast,
    dispatch_setUser, setTimeout_navigate, METAMASK_BACKEND_URL.
  cbn. rewrite H, Hget. unfold log.
  destruct (truthy verdict); cbn; rewrite <- !app_assoc; reflexivity.
Qed.

(** The wallet step of [connectWallet], up to the call of
    [handleMetaMaskLogin]. *)
Lemma connectWallet_connected address :
  wallet_connects keccak256 icap_decode env address ->
  connectWallet keccak256 icap_decode env (init s)
  = try_catch (handleMetaMaskLogin env address)
      (fun err =>
         console_error [LStr "Failed to connect MetaMask and login:"; LErr err] ;;
         toast Error "Failed to connect wallet. Please try again.")
      {| store := s; isWalletConnected := true;
         events := [EthereumRequest "eth_requestAccounts";
                    SetIsWalletConnected true] |}.
Proof.
  intros (req & accounts & Hreq & Hacc & Haddr).
  unfold connectWallet, window_ethereum_request, try_catch, bind, await,
    emit, setIsWalletConnected, init.
  rewrite Hreq. cbn. rewrite Hacc. cbn. rewrite Haddr. reflexivity.
Qed.

(** C3. In the wallet-only flow, when the wallet yields the normalised
    address [address], the challenge is issued, the wallet signs it and
    the verifier's answer has a truthy [success], exactly one session
    record is published: its [walletAddress] is [address], its name the
    default [Anonymous], its avatar the default picture and its token the
    placeholder.  The navigation to [/home] is scheduled afterwards. *)
Theorem wallet_flow_verified address message signature data verdict :
  wallet_connects keccak256 icap_decode env address ->
  answer env (challenge_request env address) = inr message ->
  truthy message = true ->
  signer_signMessage env message = inr signature ->
  signature <> "" ->
  answer env (verify_request message signature) = inr data ->
  get data "success" = Some verdict ->
  truthy verdict = true ->
  let w := exec (connectWallet keccak256 icap_decode env) (init s) in
  let session := wallet_session address in
  published (events w) = [session] /\
  store w = Some session /\
  walletAddress (session_user session) = Some address /\
  name (session_user session) = "Anonymous" /\
  avatar (session_user session)
    = "https://cdn-icons-png.flaticon.com/128/10/10960.png" /\
  token session = "jadfkklakssl" /\
  events w =
    [EthereumRequest "eth_requestAccounts";
     SetIsWalletConnected true;
     AxiosPost (fst (challenge_request env address))
               (snd (challenge_request env address))
               [("Content-Type", "application/json")];
     SignerSignMessage message;
     AxiosPost (fst (verify_request message signature))
               (snd (verify_request message signature)) [];
     Toast Success "Successfully authenticated with MetaMask!";
     Dispatch session;
     SetTimeoutNavigate 2000 "/home"].
Proof.
  intros Hw Hmsg Htm Hsig Hne Hver Hget Htv.
  destruct (wallet_provider address Hw) as [provider Hp].
  apply String.eqb_neq in Hne.
  unfold exec, result. rewrite (connectWallet_connected address Hw).
  unfold handleMetaMaskLogin, try_catch, bind, throw.
  rewrite (getSiweMessage_resolves _ _ _ Hmsg), Htm. cbn.
  rewrite (signMessage_resolves _ _ _ _ Hp Hsig). cbn. rewrite Hne. cbn.
  rewrite (verifySignature_verdict _ _ _ _ _ _ Hver Hget), Htv.
  cbn. repeat split.
Qed.

(** C4. In the wallet-only flow, when the verifier answers with a falsy
    [success] (the answer [{success: false}]), nothing is published, the
    store is unchanged and nothing navigates.  The verdict is handled on
    the normal path: the run ends with the single toast
    [Authentication failed!], no [catch] handler runs (nothing is logged
    to the console, no other toast is raised), and the flow returns
    normally. *)
Theorem wallet_flow_denied address message signature data verdict :
  wallet_connects keccak256 icap_decode env address ->
  answer env (challenge_request env address) = inr message ->
  truthy message = true ->
  signer_signMessage env message = inr signature ->
  signature <> "" ->
  answer env (verify_request message signature) = inr data ->
  get data "success" = Some verdict ->
  truthy verdict = false ->
  let w := exec (connectWallet keccak256 icap_decode env) (init s) in
  published (events w) = [] /\
  store w = s /\
  navigations (events w) = [] /\
  notifications (events w) = [VerificationDenied] /\
  result (connectWallet keccak256 icap_decode env) (init s) = inr tt /\
  events w =
    [EthereumRequest "eth_requestAccounts";
     SetIsWalletConnected true;
     AxiosPost (fst (challenge_request env address))
               (snd (challenge_request env address))
               [("Content-Type", "application/json")];
     SignerSignMessage message;
     AxiosPost (fst (verify_request message signature))
               (snd (verify_request message signature)) [];
     Toast Error "Authentication failed!"].
Proof.
  intros Hw Hmsg Htm Hsig Hne Hver Hget Htv.
  destruct (wallet_provider address Hw) as [provider Hp].
  apply String.eqb_neq in Hne.
  unfold exec, result. rewrite (connectWallet_connected address Hw).
  unfold handleMetaMaskLogin, try_catch, bind, throw.
  rewrite (getSiweMessage_resolves _ _ _ Hmsg), Htm. cbn.
  rewrite (signMessage_resolves _ _ _ _ Hp Hsig). cbn. rewrite Hne. cbn.
  rewrite (verifySignature_verdict _ _ _ _ _ _ Hver Hget), Htv.
  cbn. repeat split.
Qed.

(** C5. In the wallet-only flow, when the challenge request fails (axios
    rejects: a network error or a non-2xx answer), the wallet is never
    asked to sign, nothing is published, the store is unchanged and
    nothing navigates.  The challenge failure is reported exactly once,
    by [getSiweMessage]; [handleMetaMaskLogin] then reports that the
    login failed.  The only request sent is the challenge request. *)
Theorem wallet_flow_challenge_failure address err :
  wallet_connects keccak256 icap_decode env address ->
  answer env (challenge_request env address) = inl err ->
  let w := exec (connectWallet keccak256 icap_decode env) (init s) in
  sign_requests (events w) = [] /\
  published (events w) = [] /\
  store w = s /\
  navigations (events w) = [] /\
  reported ChallengeRequestFailed (events w) = 1 /\
  notifications (events w) = [ChallengeRequestFailed; LoginFailed] /\
  http_requests (events w) = [challenge_request env address] /\
  result (connectWallet keccak256 icap_decode env) (init s) = inr tt /\
  events w =
    [EthereumRequest "eth_requestAccounts";
     SetIsWalletConnected true;
     AxiosPost (fst (challenge_request env address))
               (snd (challenge_request env address))
               [("Content-Type", "application/json")];
     Toast Error "Failed to authenticate with MetaMask. Please try again.";
     ConsoleError
       match response err with
       | Some data => [LVal data]
       | None => [LStr "Error fetching SIWE message:"; LStr (message err)]
       end;
     ConsoleError [LStr "Login failed:"; LErr (Js.Error "Message generation failed")];
     Toast Error "MetaMask login failed. Please try again."].
Proof.
  intros Hw Hmsg.
  unfold exec, result. rewrite (connectWallet_connected address Hw).
  unfold handleMetaMaskLogin, try_catch, bind, throw.
  rewrite (getSiweMessage_rejects _ _ _ Hmsg). cbn. repeat split.
Qed.

(** The wallet-only flow publishes verified addresses only: whatever the
    collaborators do, a record published by [connectWallet] is the wallet
    session of an address for which the verification request was sent and
    answered with a truthy [success]. *)
Lemma wallet_flow_publishes_only_verified (r : SessionRecord) :
  In r (published (events (exec (connectWallet keccak256 icap_decode env) (init s)))) ->
  exists address message signature data verdict,
    r = wallet_session address /\
    In (verify_request message signature)
       (http_requests
          (events (exec (connectWallet keccak256 icap_decode env) (init s)))) /\
    answer env (verify_request message signature) = inr data /\
    get data "success" = Some verdict /\
    truthy verdict = true.
Proof.
  unfold answer, verify_request. run. split_run; cbn;
    try (intros []; fail).
  intros [<- | []]. do 5 eexists.
  split; [reflexivity|]. split; [right; left; reflexivity|]. eauto.
Qed.

(** C8. The challenge request of [getSiweMessage] is one POST to
    [/metamask/message] whose body has exactly the fields [address],
    [domain] and [uri]; the verification request of [verifySignature] is
    one POST to [/metamask/verify] whose body has exactly the fields
    [message] and [signature], and so no [address]. *)
Theorem request_shapes address message signature :
  http_requests (events (exec (getSiweMessage env address) (init s)))
    = [("http://localhost:3001/metamask/message",
        JObj [("address", JStr address);
              ("domain", JStr (str_or (hostname env) "localhost"));
              ("uri", JStr (str_or (origin env) "http://localhost:3000"))])] /\
  http_requests
    (events (exec (verifySignature env address message signature) (init s)))
    = [("http://localhost:3001/metamask/verify",
        JObj [("message", message); ("signature", JStr signature)])] /\
  map (fun r => keys (snd r))
      (http_requests (events (exec (getSiweMessage env address) (init s))))
    = [["address"; "domain"; "uri"]] /\
  map (fun r => keys (snd r))
      (http_requests
         (events (exec (verifySignature env address message signature) (init s))))
    = [["message"; "signature"]] /\
  ~ In "address" ["message"; "signature"].
Proof.
  assert (Hc : http_requests (events (exec (getSiweMessage env address) (init s)))
               = [challenge_request env address]).
  { run. split_run; reflexivity. }
  assert (Hv : http_requests
                 (events (exec (verifySignature env address message signature)
                               (init s)))
               = [verify_request message signature]).
  { run. split_run; reflexivity. }
  rewrite Hc, Hv. repeat split.
  cbn. intros [H|[H|[]]]; discriminate.
Qed.

End Flows.

(** ** Address normalisation *)

Section Normalisation.

Variable keccak256 : string -> list N.
Variable icap_decode : string -> JsError + string.

Lemma toLowerCase_char_upper (c : ascii) :
  toLowerCase_char (toUpperCase_char (toLowerCase_char c)) = toLowerCase_char c.
Proof. destruct c as [[] [] [] [] [] [] [] []]; reflexivity. Qed.

Lemma toLowerCase_char_idem (c : ascii) :
  toLowerCase_char (toLowerCase_char c) = toLowerCase_char c.
Proof. destruct c as [[] [] [] [] [] [] [] []]; reflexivity. Qed.

Lemma is_hex_toUpperCase (c : ascii) :
  is_hex c = true -> is_hex (toUpperCase_char c) = true.
Proof. destruct c as [[] [] [] [] [] [] [] []]; intros H; exact H || reflexivity. Qed.

Lemma is_hex_toLowerCase (c : ascii) :
  is_hex c = true -> is_hex (toLowerCase_char c) = true.
Proof. destruct c as [[] [] [] [] [] [] [] []]; intros H; exact H || reflexivity. Qed.

Lemma length_string_of_list_ascii (l : list ascii) :
  String.length (string_of_list_ascii l) = List.length l.
Proof. induction l; cbn; congruence. Qed.

Lemma length_list_ascii_of_string (t : string) :
  List.length (list_ascii_of_string t) = String.length t.
Proof. induction t; cbn; congruence. Qed.

Lemma substring_0_2 (a b : ascii) (t : string) :
  substring 0 2 (String a (String b t)) = String a (String b "").
Proof. destruct t; reflexivity. Qed.

(** The checksum loop changes the case of letters only. *)
Lemma checksum_chars_lower hashed (chars : list ascii) :
  forall i,
    map toLowerCase_char (checksum_chars hashed i (map toLowerCase_char chars))
    = map toLowerCase_char chars.
Proof.
  induction chars as [|c chars IH]; intros i; cbn; [reflexivity|].
  rewrite IH. f_equal.
  destruct (8 <=? nibble hashed i)%N.
  - apply toLowerCase_char_upper.
  - apply toLowerCase_char_idem.
Qed.

Lemma checksum_chars_length hashed (chars : list ascii) :
  forall i, List.length (checksum_chars hashed i chars) = List.length chars.
Proof. induction chars; intros i; cbn; [reflexivity | now rewrite IHchars]. Qed.

Lemma checksum_chars_hex hashed (chars : list ascii) :
  forall i,
    forallb is_hex chars = true ->
    forallb is_hex (checksum_chars hashed i chars) = true.
Proof.
  induction chars as [|c chars IH]; intros i; cbn; [reflexivity|].
  intros H. apply andb_prop in H as [Hc Hrest].
  rewrite (IH _ Hrest), andb_true_r.
  destruct (8 <=? nibble hashed i)%N; [now apply is_hex_toUpperCase | exact Hc].
Qed.

Lemma forallb_is_hex_lower (chars : list ascii) :
  forallb is_hex chars = true ->
  forallb is_hex (map toLowerCase_char chars) = true.
Proof.
  induction chars as [|c chars IH]; cbn; [reflexivity|].
  intros H. apply andb_prop in H as [Hc Hrest].
  now rewrite (is_hex_toLowerCase _ Hc), IH.
Qed.

(** A checksummed address is accepted as it is. *)
Lemma getChecksumAddress_fixed (a r : string) :
  getChecksumAddress keccak256 a = inr r ->
  getAddress keccak256 icap_decode r = inr r.
Proof.
  unfold getChecksumAddress.
  destruct (strip_0x a) as [body|] eqn:Hstrip; [|discriminate].
  destruct (is_hex40 body) eqn:Hhex; [|discriminate].
  intros [= <-].
  unfold is_hex40 in Hhex. apply andb_prop in Hhex as [Hlen Hall].
  apply Nat.eqb_eq in Hlen.
  unfold toLowerCase. rewrite list_ascii_of_string_of_list_ascii.
  set (low := map toLowerCase_char (list_ascii_of_string body)).
  set (hashed := keccak256 (string_of_list_ascii low)).
  set (R := checksum_chars hashed 0 low).
  assert (HR : is_hex40 (string_of_list_ascii R) = true).
  { unfold is_hex40. rewrite length_string_of_list_ascii,
      list_ascii_of_string_of_list_ascii.
    unfold R. rewrite checksum_chars_length. unfold low.
    rewrite length_map, length_list_ascii_of_string, Hlen. cbn.
    apply checksum_chars_hex, forallb_is_hex_lower, Hall. }
  assert (Hlow : map toLowerCase_char R = low).
  { unfold R, low. apply checksum_chars_lower. }
  unfold getAddress, matches_hex_address. cbn [strip_0x append].
  rewrite HR.
  rewrite substring_0_2.
  rewrite String.eqb_refl.
  unfold getChecksumAddress. cbn [strip_0x]. rewrite HR.
  unfold toLowerCase. rewrite !list_ascii_of_string_of_list_ascii, Hlow.
  fold hashed. fold R.
  rewrite String.eqb_refl, andb_false_r. reflexivity.
Qed.

(** C9. Normalisation is idempotent on valid addresses: whenever
    [getAddress] accepts [a] and returns [r], it accepts [r] and returns
    it unchanged, so [getAddress (getAddress a) = getAddress a].  This
    holds for every hash function and every ICAP decoder. *)
Theorem getAddress_idempotent (a r : string) :
  getAddress keccak256 icap_decode a = inr r ->
  getAddress keccak256 icap_decode r = inr r.
Proof.
  unfold getAddress at 1.
  destruct (matches_hex_address a).
  - destruct (getChecksumAddress keccak256
                (if (substring 0 2 a =? "0x")%string then a else ("0x" ++ a)%string))
      as [e|r'] eqn:Hsum; [discriminate|].
    destruct (mixed_case _ && negb (r' =? _)%string); [discriminate|].
    intros [= <-]. eapply getChecksumAddress_fixed; eassumption.
  - destruct (icap_decode a) as [e|digits]; [discriminate|].
    apply getChecksumAddress_fixed.
Qed.

End Normalisation.

(** ** The flows on concrete collaborators *)

Section Runs.

Import Example.

Example getAddress_eip55 :
  getAddress Keccak.keccak256 no_icap account = inr account_checksummed.
Proof. vm_compute. reflexivity. Qed.

Example getAddress_adds_prefix :
  getAddress Keccak.keccak256 no_icap "fb6916095ca1df60bb79ce92ce3ea74c37c5d359"
  = inr "0xfB6916095ca1df60bB79Ce92cE3Ea74c37c5d359".
Proof. vm_compute. reflexivity. Qed.

Example getAddress_bad_checksum :
  getAddress Keccak.keccak256 no_icap "0x5AAeb6053F3E94C9b9A09f33669435E7Ef1BeAed"
  = inl bad_address_checksum.
Proof. vm_compute. reflexivity. Qed.

Example handleGoogleAuth_no_token :
  events (exec (handleGoogleAuth Keccak.keccak256 no_icap
                  (make_env google_no_token None (service true))) (init None))
  = [ConsoleLog [LStr "Google Auth Provider initialized"];
     SignInWithPopup;
     Toast Error "Failed to get authentication token"].
Proof. reflexivity. Qed.

Example handleGoogleAuth_popup_closed :
  events (exec (handleGoogleAuth Keccak.keccak256 no_icap env_popup_closed)
               (init None))
  = [ConsoleLog [LStr "Google Auth Provider initialized"];
     SignInWithPopup;
     ConsoleError [LStr "Google authentication failed:"; LErr popup_closed];
     Toast Info "Sign-in was cancelled"].
Proof. reflexivity. Qed.

Example handleGoogleAuth_no_wallet :
  events (exec (handleGoogleAuth Keccak.keccak256 no_icap env_no_wallet)
               (init None))
  = [ConsoleLog [LStr "Google Auth Provider initialized"];
     SignInWithPopup;
     ConsoleLog [LStr "Google sign-in successful:"; LUser alice];
     Toast Warn "MetaMask is not installed. Continuing without wallet connection.";
     Dispatch (google_session alice None "ya29.a0Af");
     Navigate "/home"].
Proof. reflexivity. Qed.

Example handleGoogleAuth_declined :
  events (exec (handleGoogleAuth Keccak.keccak256 no_icap env_declined)
               (init None))
  = [ConsoleLog [LStr "Google Auth Provider initialized"];
     SignInWithPopup;
     ConsoleLog [LStr "Google sign-in successful:"; LUser alice];
     EthereumRequest "eth_requestAccounts";
     ConsoleError [LStr "Wallet connection failed:"; LErr user_rejected];
     Toast Error "Failed to connect wallet. Please try again.";
     Dispatch (google_session alice None "ya29.a0Af");
     Navigate "/home"].
Proof. reflexivity. Qed.

Example connectWallet_no_wallet :
  events (exec (connectWallet Keccak.keccak256 no_icap env_no_wallet) (init None))
  = [Toast Warn
       "MetaMask is not installed. Please install MetaMask to sign-up successfully."].
Proof. reflexivity. Qed.

Lemma account_connects (env : Env) :
  ethereum env = Some (metamask (inr [account])) ->
  wallet_connects Keccak.keccak256 no_icap env account_checksummed.
Proof.
  intros H. exists (fun _ => inr [account]), [account].
  unfold ethereum_request. rewrite H.
  split; [reflexivity | split; [reflexivity | vm_compute; reflexivity]].
Defined.

(** C1. The combined flow on a wallet that hands out an account and a
    verifier that denies every signature: the record published carries
    the wallet address although the authentication service was never
    asked and the wallet never signed anything. *)
Theorem combined_flow_publishes_unverified_address :
  let w := exec (handleGoogleAuth Keccak.keccak256 no_icap env_linked)
                (init None) in
  published (events w)
    = [ {| session_user :=
             {| name := "Alice";
                avatar := "https://example.org/alice.png";
                walletAddress := Some "0x5aAeb6053F3E94C9b9A09f33669435E7Ef1BeAed" |};
           token := "ya29.a0Af" |} ] /\
  http_requests (events w) = [] /\
  sign_requests (events w) = [] /\
  (forall message signature,
      answer env_linked (verify_request message signature)
      = inr (JObj [("success", JBool false)])).
Proof. vm_compute. repeat split. Qed.

Lemma combined_flow_links_wallet_witness :
  published
    (events (exec (handleGoogleAuth Keccak.keccak256 no_icap env_linked)
                  (init None)))
  = [google_session alice (Some account_checksummed) "ya29.a0Af"].
Proof.
  refine (proj1 (combined_flow_links_wallet Keccak.keccak256 no_icap env_linked
                   None _ "ya29.a0Af" account_checksummed
                   eq_refl eq_refl _ (account_connects env_linked eq_refl))).
  discriminate.
Defined.

Lemma combined_flow_survives_wallet_failure_witness :
  outcome (handleGoogleAuth Keccak.keccak256 no_icap env_declined) (init None)
  = (inr tt,
     Some {| session_user :=
               {| name := "Alice";
                  avatar := "https://example.org/alice.png";
                  walletAddress := None |};
             token := "ya29.a0Af" |},
     [ {| session_user :=
            {| name := "Alice";
               avatar := "https://example.org/alice.png";
               walletAddress := None |};
          token := "ya29.a0Af" |} ],
     ["/home"]) /\
  outcome (handleGoogleAuth Keccak.keccak256 no_icap env_no_wallet) (init None)
  = outcome (handleGoogleAuth Keccak.keccak256 no_icap env_declined) (init None) /\
  notifications
    (events (exec (handleGoogleAuth Keccak.keccak256 no_icap env_declined)
                  (init None)))
  = [(Error, "Failed to connect wallet. Please try again.")].
Proof.
  assert (Hfail : wallet_fails Keccak.keccak256 no_icap env_declined).
  { apply wallet_rejected with (req := fun _ => inl user_rejected) (e := user_rejected);
      reflexivity. }
  assert (Hne : "ya29.a0Af" <> "") by discriminate.
  pose proof (combined_flow_survives_wallet_failure Keccak.keccak256 no_icap
                env_declined None _ "ya29.a0Af" eq_refl eq_refl Hne Hfail) as H.
  cbv zeta in H.
  destruct H as (Hout & _ & _ & _ & _ & _ & Hsame & _ & _ & _ & _ & _ & _ & Hnote).
  split; [exact Hout | split].
  - apply Hsame.
    + reflexivity.
    + apply wallet_absent. reflexivity.
  - exact (Hnote (fun _ => inl user_rejected) eq_refl).
Defined.

Lemma federated_failure_leaves_session_witness :
  let w := exec (handleGoogleAuth Keccak.keccak256 no_icap env_popup_closed)
                (init (Some (wallet_session account_checksummed))) in
  store w = Some (wallet_session account_checksummed) /\
  published (events w) = [] /\
  navigations (events w) = [] /\
  notifications (events w) = [(Info, "Sign-in was cancelled")].
Proof.
  assert (Hfail : federated_fails env_popup_closed).
  { left. exists popup_closed. reflexivity. }
  pose proof (federated_failure_leaves_session Keccak.keccak256 no_icap
                env_popup_closed (Some (wallet_session account_checksummed))
                Hfail) as H.
  cbv zeta in H |- *.
  destruct H as (_ & Hs & _ & Hp & Hn & _ & _ & Hcancel & _).
  exact (conj Hs (conj Hp (conj Hn (Hcancel popup_closed eq_refl eq_refl)))).
Defined.

Lemma navigation_only_after_publish_witness :
  exists p,
    In (Dispatch p)
       [ConsoleLog [LStr "Google Auth Provider initialized"];
        SignInWithPopup;
        ConsoleLog [LStr "Google sign-in successful:"; LUser alice];
        Toast Warn "MetaMask is not installed. Continuing without wallet connection.";
        Dispatch (google_session alice None "ya29.a0Af")].
Proof.
  refine (proj1 (navigation_only_after_publish Keccak.keccak256 no_icap
                   env_no_wallet None) _ (Navigate "/home") [] _ _);
    reflexivity.
Defined.

Lemma wallet_flow_verified_witness :
  published
    (events (exec (connectWallet Keccak.keccak256 no_icap (env_wallet true))
                  (init None)))
  = [wallet_session account_checksummed].
Proof.
  refine (proj1 (wallet_flow_verified Keccak.keccak256 no_icap (env_wallet true)
                   None account_checksummed challenge signature
                   (JObj [("success", JBool true)]) (JBool true)
                   (account_connects (env_wallet true) eq_refl)
                   eq_refl eq_refl eq_refl _ eq_refl eq_refl eq_refl)).
  discriminate.
Defined.

Lemma wallet_flow_denied_witness :
  let w := exec (connectWallet Keccak.keccak256 no_icap (env_wallet false))
                (init None) in
  published (events w) = [] /\
  store w = None /\
  navigations (events w) = [] /\
  notifications (events w) = [VerificationDenied].
Proof.
  assert (Hne : signature <> "") by discriminate.
  pose proof (wallet_flow_denied Keccak.keccak256 no_icap (env_wallet false)
                None account_checksummed challenge signature
                (JObj [("success", JBool false)]) (JBool false)
                (account_connects (env_wallet false) eq_refl)
                eq_refl eq_refl eq_refl Hne eq_refl eq_refl eq_refl) as H.
  cbv zeta in H |- *.
  destruct H as (Hp & Hs & Hn & Ht & _).
  exact (conj Hp (conj Hs (conj Hn Ht))).
Defined.

Lemma wallet_flow_challenge_failure_witness :
  let w := exec (connectWallet Keccak.keccak256 no_icap env_service_down)
                (init None) in
  sign_requests (events w) = [] /\
  published (events w) = [] /\
  notifications (events w) = [ChallengeRequestFailed; LoginFailed].
Proof.
  pose proof (wallet_flow_challenge_failure Keccak.keccak256 no_icap
                env_service_down None account_checksummed network_error
                (account_connects env_service_down eq_refl) eq_refl) as H.
  cbv zeta in H |- *.
  destruct H as (Hsg & Hp & _ & _ & _ & Hn & _).
  exact (conj Hsg (conj Hp Hn)).
Defined.

Lemma getAddress_idempotent_witness :
  getAddress Keccak.keccak256 no_icap account = inr account_checksummed /\
  getAddress Keccak.keccak256 no_icap account_checksummed
  = inr account_checksummed.
Proof.
  assert (H : getAddress Keccak.keccak256 no_icap account = inr account_checksummed)
    by (vm_compute; reflexivity).
  exact (conj H (getAddress_idempotent Keccak.keccak256 no_icap _ _ H)).
Defined.

End Runs.

(** * Further properties of the hook *)

Section MoreFlows.

Variable keccak256 : string -> list N.
Variable icap_decode : string -> JsError + string.
Variable env : Env.
Variable s : option SessionRecord.

(** X1. No function of the hook lets an exception escape: from any state, each
    of them returns normally, whatever the collaborators do. *)
Theorem hook_never_rejects (w : World) (address : string) (message : jsval)
    (signature : string) :
  result (handleGoogleAuth keccak256 icap_decode env) w = inr tt /\
  result (connectWallet keccak256 icap_decode env) w = inr tt /\
  result (handleMetaMaskLogin env address) w = inr tt /\
  result (verifySignature env address message signature) w = inr tt /\
  (exists v, result (getSiweMessage env address) w = inr v) /\
  (exists o, result (signMessage env message) w = inr o).
Proof.
  repeat split; run; split_run; eauto.
Qed.

(** X2. The combined flow never contacts the authentication service and never
    asks the wallet to sign, on any path. *)
Theorem combined_flow_never_contacts_service :
  http_requests
    (events (exec (handleGoogleAuth keccak256 icap_decode env) (init s))) = [] /\
  sign_requests
    (events (exec (handleGoogleAuth keccak256 icap_decode env) (init s))) = [].
Proof.
  split; run; split_run; reflexivity.
Qed.

(** X3. Each flow publishes at most one record per run, navigates exactly once
    per record it publishes and only to [/home], and leaves the store
    holding the record it published, or untouched when it published none. *)
Theorem one_publication_one_navigation :
  let g := exec (handleGoogleAuth keccak256 icap_decode env) (init s) in
  let c := exec (connectWallet keccak256 icap_decode env) (init s) in
  (Nat.leb (length (published (events g))) 1 = true /\
   length (navigations (events g)) = length (published (events g)) /\
   forallb (String.eqb "/home") (navigations (events g)) = true /\
   store g = match published (events g) with [] => s | r :: _ => Some r end) /\
  (Nat.leb (length (published (events c))) 1 = true /\
   length (navigations (events c)) = length (published (events c)) /\
   forallb (String.eqb "/home") (navigations (events c)) = true /\
   store c = match published (events c) with [] => s | r :: _ => Some r end).
Proof.
  split; run; split_run; repeat split.
Qed.

(** X4. A success toast is raised exactly in the runs that publish a record
    with a wallet address: the combined flow then raises the single toast
    [Successfully authenticated with Google and MetaMask!], the wallet-only
    flow, whose records all carry a wallet address, the single toast
    [Successfully authenticated with MetaMask!].  The federated-only
    record is published under the warning that MetaMask is not installed
    or under the error toast [Failed to connect wallet], and nothing
    else. *)
Theorem success_toast_iff_wallet_published :
  let g := exec (handleGoogleAuth keccak256 icap_decode env) (init s) in
  let c := exec (connectWallet keccak256 icap_decode env) (init s) in
  existsb is_success (notifications (events g))
    = existsb has_wallet (published (events g)) /\
  existsb is_success (notifications (events c))
    = existsb has_wallet (published (events c)) /\
  (forall r, In r (published (events g)) -> has_wallet r = false ->
     notifications (events g)
     = [(Warn, "MetaMask is not installed. Continuing without wallet connection.")] \/
     notifications (events g)
     = [(Error, "Failed to connect wallet. Please try again.")]) /\
  (forall r, In r (published (events g)) -> has_wallet r = true ->
     notifications (events g)
     = [(Success, "Successfully authenticated with Google and MetaMask!")]) /\
  (forall r, In r (published (events c)) ->
     has_wallet r = true /\
     notifications (events c)
     = [(Success, "Successfully authenticated with MetaMask!")]).
Proof.
  cbn zeta.
  split; [run; split_run; reflexivity|].
  split; [run; split_run; reflexivity|].
  split; [|split].
  - run. split_run; cbn; intros r Hin Hw;
      repeat match goal with
             | H : _ \/ _ |- _ => destruct H as [H|H]
             | H : False |- _ => destruct H
             end; subst; cbn in Hw; try discriminate; auto.
  - run. split_run; cbn; intros r Hin Hw;
      repeat match goal with
             | H : _ \/ _ |- _ => destruct H as [H|H]
             | H : False |- _ => destruct H
             end; subst; cbn in Hw; try discriminate; auto.
  - run. split_run; cbn; intros r Hin;
      repeat match goal with
             | H : _ \/ _ |- _ => destruct H as [H|H]
             | H : False |- _ => destruct H
             end; subst; auto.
Qed.

(** X5. Neither flow ever clears [isWalletConnected]: once it is set it stays
    set, whatever a later run does (a later refusal of the wallet
    included). *)
Theorem isWalletConnected_never_reset (w : World) :
  isWalletConnected w = true ->
  isWalletConnected (exec (handleGoogleAuth keccak256 icap_decode env) w) = true /\
  isWalletConnected (exec (connectWallet keccak256 icap_decode env) w) = true.
Proof.
  intros Hw. split; run; split_run; assumption || reflexivity.
Qed.

(** X6. In the wallet-only flow [isWalletConnected] is set as soon as the
    wallet grants the accounts, and only then: it is set even when the
    account is not a valid address or the login fails afterwards. *)
Theorem connectWallet_sets_isWalletConnected :
  isWalletConnected (exec (connectWallet keccak256 icap_decode env) (init s)) = true
  <-> accounts_granted env.
Proof.
  unfold accounts_granted. run. split_run.
  all: (split;
        [ intros Ht; try discriminate; eauto
        | intros (req & accounts & H1 & H2); try reflexivity; congruence ]).
Qed.

(** X7. In the combined flow [isWalletConnected] is set exactly when the
    federated step succeeded and the wallet granted the accounts, whether
    or not the account is a valid address. *)
Theorem handleGoogleAuth_sets_isWalletConnected :
  isWalletConnected (exec (handleGoogleAuth keccak256 icap_decode env) (init s)) = true
  <-> federated_succeeds env /\ accounts_granted env.
Proof.
  unfold accounts_granted, federated_succeeds.
  destruct (signInWithPopup env) as [e|cred] eqn:Hs.
  { run. rewrite Hs. cbn. split_run;
      (split; [discriminate | intros [(c & Hc & _) _]; discriminate]). }
  destruct (truthy_str (access_token cred)) eqn:Ht.
  2:{ run. rewrite Hs. cbn. unfold access_token in Ht. rewrite Ht. cbn.
      split; [discriminate | intros [(c & Hc & Ht') _]].
      injection Hc as <-. unfold access_token in Ht'. congruence. }
  pose proof Ht as Hfed. unfold access_token in Ht.
  destruct (ethereum_request env) as [req|] eqn:Hr.
  2:{ run. follow. split; [discriminate | intros [_ (r & a & H1 & _)]; discriminate]. }
  destruct (req "eth_requestAccounts") as [e|accounts] eqn:Ha.
  { run. follow.
    split; [discriminate | intros [_ (r & a & H1 & H2)]]. congruence. }
  run. follow.
  split_run;
    (split; [intros _; split; [exists cred; split; [reflexivity | exact Hfed] | eauto]
            | reflexivity]).
Qed.

(** *** The failing steps of the wallet flow *)

Lemma signMessage_rejects w provider message err :
  ethereum env = Some provider ->
  signer_signMessage env message = inl err ->
  signMessage env message w
  = (inr None,
     log w [SignerSignMessage message;
            ConsoleError [LStr "Failed to sign message:"; LErr err];
            Toast Error "Failed to sign message. Please try again."]).
Proof.
  intros Hp H.
  unfold signMessage, Web3Provider, try_catch, bind, await, ret,
    console_error, toast, emit.
  rewrite Hp. cbn. rewrite H. unfold log. cbn. rewrite <- !app_assoc. reflexivity.
Qed.

Lemma verifySignature_rejects w address message signature err :
  answer env (verify_request message signature) = inl err ->
  verifySignature env address message signature w
  = (inr tt,
     log w [AxiosPost (fst (verify_request message signature))
                      (snd (verify_request message signature)) [];
            ConsoleError [LStr "Verification failed:"; LErr err];
            Toast Error "Verification failed. Please try again."]).
Proof.
  unfold answer, verify_request. cbn [fst snd]. intros H.
  unfold verifySignature, try_catch, bind, await, ret, throw, toast,
    console_error, emit, METAMASK_BACKEND_URL.
  cbn. rewrite H. unfold log. cbn. rewrite <- !app_assoc. reflexivity.
Qed.

Lemma verifySignature_no_data w address message signature data :
  answer env (verify_request message signature) = inr data ->
  get data "success" = None ->
  verifySignature env address message signature w
  = (inr tt,
     log w [AxiosPost (fst (verify_request message signature))
                      (snd (verify_request message signature)) [];
            ConsoleError [LStr "Verification failed:";
                          LErr (Js.TypeError "Cannot read properties of undefined")];
            Toast Error "Verification failed. Please try again."]).
Proof.
  unfold answer, verify_request. cbn [fst snd]. intros H Hget.
  unfold verifySignature, try_catch, bind, await, ret, throw, toast,
    console_error, emit, METAMASK_BACKEND_URL.
  cbn. rewrite H, Hget. unfold log. cbn. rewrite <- !app_assoc. reflexivity.
Qed.

(** X8. When the wallet refuses to sign the challenge (the signing prompt
    rejects), no verification request is sent: the only request is the
    challenge request, nothing is published, the store is unchanged and
    nothing navigates.  The refusal is reported by [signMessage] and then
    again, as a failed login, by [handleMetaMaskLogin];
    [isWalletConnected] stays set. *)
Theorem wallet_flow_signing_rejected address message err :
  wallet_connects keccak256 icap_decode env address ->
  answer env (challenge_request env address) = inr message ->
  truthy message = true ->
  signer_signMessage env message = inl err ->
  let w := exec (connectWallet keccak256 icap_decode env) (init s) in
  http_requests (events w) = [challenge_request env address] /\
  sign_requests (events w) = [message] /\
  published (events w) = [] /\
  store w = s /\
  navigations (events w) = [] /\
  notifications (events w) = [SigningFailed; LoginFailed] /\
  isWalletConnected w = true.
Proof.
  intros Hw Hmsg Htm Hsig.
  destruct (wallet_provider keccak256 icap_decode env address Hw) as [provider Hp].
  unfold exec. rewrite (connectWallet_connected keccak256 icap_decode env s address Hw).
  unfold handleMetaMaskLogin, try_catch, bind, throw.
  rewrite (getSiweMessage_resolves env _ _ _ Hmsg), Htm. cbn.
  rewrite (signMessage_rejects _ _ _ _ Hp Hsig). cbn. repeat split.
Qed.

(** X9. When the verification request itself fails (axios rejects, or the
    answer has no body to read [success] from), nothing is published, the
    store is unchanged and nothing navigates; the failure is reported once,
    by [verifySignature], and is not reported again as a failed login. *)
Theorem wallet_flow_verification_unavailable address message signature :
  wallet_connects keccak256 icap_decode env address ->
  answer env (challenge_request env address) = inr message ->
  truthy message = true ->
  signer_signMessage env message = inr signature ->
  signature <> "" ->
  ((exists err, answer env (verify_request message signature) = inl err) \/
   (exists data, answer env (verify_request message signature) = inr data /\
                 get data "success" = None)) ->
  let w := exec (connectWallet keccak256 icap_decode env) (init s) in
  http_requests (events w)
    = [challenge_request env address; verify_request message signature] /\
  published (events w) = [] /\
  store w = s /\
  navigations (events w) = [] /\
  notifications (events w) = [VerificationRequestFailed].
Proof.
  intros Hw Hmsg Htm Hsig Hne Hver.
  destruct (wallet_provider keccak256 icap_decode env address Hw) as [provider Hp].
  apply String.eqb_neq in Hne.
  unfold exec. rewrite (connectWallet_connected keccak256 icap_decode env s address Hw).
  unfold handleMetaMaskLogin, try_catch, bind, throw.
  rewrite (getSiweMessage_resolves env _ _ _ Hmsg), Htm. cbn.
  rewrite (signMessage_resolves env _ _ _ _ Hp Hsig). cbn. rewrite Hne. cbn.
  destruct Hver as [[err Hver] | [data [Hver Hget]]].
  - rewrite (verifySignature_rejects _ _ _ _ _ Hver). cbn. repeat split.
  - rewrite (verifySignature_no_data _ _ _ _ _ Hver Hget). cbn. repeat split.
Qed.

(** X10. When the service answers the challenge request with a falsy body (an
    empty message), the wallet is not asked to sign and no verification is
    attempted; the run ends with the failed-login toast alone, without the
    challenge-failure toast. *)
Theorem wallet_flow_empty_challenge address message :
  wallet_connects keccak256 icap_decode env address ->
  answer env (challenge_request env address) = inr message ->
  truthy message = false ->
  let w := exec (connectWallet keccak256 icap_decode env) (init s) in
  http_requests (events w) = [challenge_request env address] /\
  sign_requests (events w) = [] /\
  published (events w) = [] /\
  store w = s /\
  navigations (events w) = [] /\
  notifications (events w) = [LoginFailed].
Proof.
  intros Hw Hmsg Htm.
  unfold exec. rewrite (connectWallet_connected keccak256 icap_decode env s address Hw).
  unfold handleMetaMaskLogin, try_catch, bind, throw.
  rewrite (getSiweMessage_resolves env _ _ _ Hmsg), Htm. cbn. repeat split.
Qed.

(** X11. When the wallet returns an empty signature, no verification request
    is sent and nothing is published; the run ends with the failed-login
    toast alone. *)
Theorem wallet_flow_empty_signature address message :
  wallet_connects keccak256 icap_decode env address ->
  answer env (challenge_request env address) = inr message ->
  truthy message = true ->
  signer_signMessage env message = inr "" ->
  let w := exec (connectWallet keccak256 icap_decode env) (init s) in
  http_requests (events w) = [challenge_request env address] /\
  sign_requests (events w) = [message] /\
  published (events w) = [] /\
  store w = s /\
  navigations (events w) = [] /\
  notifications (events w) = [LoginFailed].
Proof.
  intros Hw Hmsg Htm Hsig.
  destruct (wallet_provider keccak256 icap_decode env address Hw) as [provider Hp].
  unfold exec. rewrite (connectWallet_connected keccak256 icap_decode env s address Hw).
  unfold handleMetaMaskLogin, try_catch, bind, throw.
  rewrite (getSiweMessage_resolves env _ _ _ Hmsg), Htm. cbn.
  rewrite (signMessage_resolves env _ _ _ _ Hp Hsig). cbn. repeat split.
Qed.


(** X13. [verifySignature] publishes exactly when the answer of the service
    carries a truthy [success]: then it publishes the wallet session of
    the address it was given, and in every other case (a falsy or missing
    [success], no body, a rejected request) it publishes nothing.  The
    verdict is read by truthiness, not compared with [true]. *)
Theorem verifySignature_publishes_iff_truthy address message signature :
  let tr := events (exec (verifySignature env address message signature) (init s)) in
  (published tr = [wallet_session address] <->
   exists data verdict,
     answer env (verify_request message signature) = inr data /\
     get data "success" = Some verdict /\
     truthy verdict = true) /\
  (published tr = [wallet_session address] \/ published tr = []).
Proof.
  unfold answer, verify_request. run. split_run.
  all: (split;
        [ split;
          [ intros Hp; try discriminate; eauto
          | intros (data & verdict & H1 & H2 & H3); try reflexivity; congruence ]
        | auto ]).
Qed.

(** X14. In the wallet-only flow the requests are chained: whatever is sent to
    the service is either the challenge request for the normalised address
    of the granted account, or the verification request for the message
    the service issued for that address and the signature the wallet gave
    for that message; and the wallet is only asked to sign a non-empty
    message the service issued for that address. *)
Theorem wallet_flow_requests_are_chained :
  let tr := events (exec (connectWallet keccak256 icap_decode env) (init s)) in
  (forall r, In r (http_requests tr) ->
     exists address,
       wallet_connects keccak256 icap_decode env address /\
       (r = challenge_request env address \/
        exists message signature,
          answer env (challenge_request env address) = inr message /\
          signer_signMessage env message = inr signature /\
          r = verify_request message signature)) /\
  (forall message, In message (sign_requests tr) ->
     exists address,
       wallet_connects keccak256 icap_decode env address /\
       answer env (challenge_request env address) = inr message /\
       truthy message = true).
Proof.
  unfold wallet_connects, answer, challenge_request, verify_request.
  run. split_run.
  all: (split; intros x Hin; cbn in Hin;
        repeat match goal with
               | H : _ \/ _ |- _ => destruct H as [H|H]
               | H : False |- _ => destruct H
               end; subst;
        repeat match goal with
               | Hb : negb ?t = false |- _ => apply negb_false_iff in Hb
               end;
        eexists; (split; [do 2 eexists; repeat split; eassumption |]);
        cbn [fst snd]; eauto 10).
Qed.

Lemma getAddress_checksummed (a r : string) :
  getAddress keccak256 icap_decode a = inr r ->
  exists x, getChecksumAddress keccak256 x = inr r.
Proof.
  unfold getAddress.
  destruct (matches_hex_address a).
  - destruct (getChecksumAddress keccak256
                (if (substring 0 2 a =? "0x")%string then a else ("0x" ++ a)%string))
      as [e|r'] eqn:Hsum; [discriminate|].
    destruct (mixed_case _ && negb (r' =? _)%string); [discriminate|].
    intros [= <-]. eauto.
  - destruct (icap_decode a) as [e|digits]; [discriminate|]. eauto.
Qed.

Lemma getAddress_of_canonical (o : option string) (r : string) :
  getAddress_of keccak256 icap_decode o = inr r ->
  getAddress keccak256 icap_decode r = inr r.
Proof.
  destruct o as [a|]; [|discriminate]. unfold getAddress_of.
  intros H. destruct (getAddress_checksummed a r H) as [x Hx].
  exact (getChecksumAddress_fixed keccak256 icap_decode x r Hx).
Qed.

(** A checksummed address is [0x] followed by 40 hexadecimal digits. *)
Lemma getChecksumAddress_shape (x r : string) :
  getChecksumAddress keccak256 x = inr r ->
  exists body, r = ("0x" ++ body)%string /\ is_hex40 body = true.
Proof.
  unfold getChecksumAddress.
  destruct (strip_0x x) as [body|]; [|discriminate].
  destruct (is_hex40 body) eqn:Hhex; [|discriminate].
  intros [= <-]. eexists. split; [reflexivity|].
  unfold is_hex40 in *. apply andb_prop in Hhex as [Hlen Hall].
  apply Nat.eqb_eq in Hlen.
  unfold toLowerCase.
  rewrite length_string_of_list_ascii, !list_ascii_of_string_of_list_ascii,
    checksum_chars_length, length_map, length_list_ascii_of_string, Hlen.
  cbn. apply checksum_chars_hex, forallb_is_hex_lower, Hall.
Qed.

(** X15. Every wallet address that either flow publishes is in canonical form:
    it is [0x] followed by 40 hexadecimal digits, and normalising it again
    returns it unchanged. *)
Theorem published_addresses_are_canonical (r : SessionRecord) (address : string) :
  In r (published
          (events (exec (handleGoogleAuth keccak256 icap_decode env) (init s)))) \/
  In r (published
          (events (exec (connectWallet keccak256 icap_decode env) (init s)))) ->
  walletAddress (session_user r) = Some address ->
  getAddress keccak256 icap_decode address = inr address /\
  exists body, address = ("0x" ++ body)%string /\ is_hex40 body = true.
Proof.
  assert (Hcanon : forall o a,
             getAddress_of keccak256 icap_decode o = inr a ->
             getAddress keccak256 icap_decode a = inr a /\
             exists body, a = ("0x" ++ body)%string /\ is_hex40 body = true).
  { intros o a H. split; [exact (getAddress_of_canonical o a H)|].
    destruct o as [a0|]; [|discriminate].
    destruct (getAddress_checksummed a0 a H) as [x Hx].
    exact (getChecksumAddress_shape x a Hx). }
  intros [Hin | Hin]; revert Hin; run; split_run; cbn;
    intros Hin Hw;
    repeat match goal with
           | H : _ \/ _ |- _ => destruct H as [H|H]
           | H : False |- _ => destruct H
           end; subst; cbn in Hw; try discriminate;
    injection Hw as <-; eapply Hcanon; eassumption.
Qed.

Lemma or_else_filled (o : option string) (d : string) :
  d <> "" -> (or_else o d =? "")%string = false.
Proof.
  intros Hd. unfold or_else, truthy_str.
  destruct o as [t|]; [|now apply String.eqb_neq].
  destruct (t =? "")%string eqn:E; cbn; [now apply String.eqb_neq | exact E].
Qed.

Lemma str_of_filled (o : option string) :
  truthy_str o = true -> (str_of o =? "")%string = false.
Proof.
  destruct o as [t|]; cbn; [|discriminate].
  intros H. now apply negb_true_iff in H.
Qed.

Lemma google_session_filled (u : FirebaseUser) (wallet : option string)
    (o : option string) :
  truthy_str o = true -> filled (google_session u wallet (str_of o)) = true.
Proof.
  intros H. unfold filled, google_session. cbn [name avatar token session_user].
  rewrite !or_else_filled, (str_of_filled _ H) by discriminate. reflexivity.
Qed.

(** X16. Every record that either flow publishes has a non-empty name, a
    non-empty avatar and a non-empty token: a federated user without a
    display name or a picture gets the defaults, and a sign-in whose token
    is empty publishes nothing. *)
Theorem published_records_are_filled :
  forallb filled
    (published
       (events (exec (handleGoogleAuth keccak256 icap_decode env) (init s)))) = true /\
  forallb filled
    (published
       (events (exec (connectWallet keccak256 icap_decode env) (init s)))) = true.
Proof.
  split.
  - unfold exec, handleGoogleAuth, try_catch, bind, await, ret, throw,
      window_ethereum_request, console_log, console_error, toast, navigate,
      dispatch_setUser, setIsWalletConnected, emit, init.
    destruct (signInWithPopup env) as [e|cred]; cbn [fst snd events app].
    { destruct (strict_eq_str (code e) _); [reflexivity|].
      destruct (strict_eq_str (code e) _); reflexivity. }
    destruct (truthy_str _) eqn:Ht; cbn [negb]; [|reflexivity].
    cbn zeta.
    destruct (ethereum_request env) as [req|]; cbn;
      [|now rewrite (google_session_filled _ _ _ Ht)].
    destruct (req "eth_requestAccounts") as [e|accounts]; cbn;
      [now rewrite (google_session_filled _ _ _ Ht)|].
    destruct (getAddress_of keccak256 icap_decode (hd_error accounts)); cbn;
      now rewrite (google_session_filled _ _ _ Ht).
  - run. split_run; reflexivity.
Qed.

(** X17. The challenge request never carries an empty [domain] or [uri]: an
    empty [window.location.hostname] is replaced by [localhost] and an
    empty [window.location.origin] by the client URL, and a non-empty one
    is sent as it is. *)
Theorem challenge_request_never_blank (address : string) :
  exists domain uri,
    http_requests (events (exec (getSiweMessage env address) (init s)))
      = [("http://localhost:3001/metamask/message",
          JObj [("address", JStr address);
                ("domain", JStr domain);
                ("uri", JStr uri)])] /\
    domain <> "" /\ uri <> "" /\
    domain = (if (hostname env =? "")%string then "localhost" else hostname env) /\
    uri = (if (origin env =? "")%string then "http://localhost:3000" else origin env).
Proof.
  exists (str_or (hostname env) "localhost"),
         (str_or (origin env) "http://localhost:3000").
  split; [run; split_run; reflexivity|].
  unfold str_or.
  destruct (hostname env =? "")%string eqn:Hh, (origin env =? "")%string eqn:Ho;
    repeat split; try discriminate;
    try (now apply String.eqb_neq).
Qed.

(** X18. Whatever the wallet-only flow publishes went through the whole
    handshake: the record is the wallet session of the normalised address
    of the granted account, the service issued a message for that address,
    the wallet signed that message, and the service answered the
    verification of that message and signature with a truthy [success]. *)
Theorem wallet_flow_publishes_verified_identity (r : SessionRecord) :
  In r (published
          (events (exec (connectWallet keccak256 icap_decode env) (init s)))) ->
  exists address message signature data verdict,
    wallet_connects keccak256 icap_decode env address /\
    answer env (challenge_request env address) = inr message /\
    signer_signMessage env message = inr signature /\
    answer env (verify_request message signature) = inr data /\
    get data "success" = Some verdict /\
    truthy verdict = true /\
    r = wallet_session address.
Proof.
  unfold wallet_connects, answer, challenge_request, verify_request.
  run. split_run; cbn; try (intros []; fail).
  intros [<- | []]. do 5 eexists.
  split; [do 2 eexists; repeat split; eassumption|].
  cbn [fst snd]. repeat split; eassumption.
Qed.

(** X19. Whatever the combined flow publishes is the federated identity: the
    record is built from the user and the non-empty access token of the
    sign-in, and it carries a wallet address exactly when the wallet step
    yielded one, namely that normalised address. *)
Theorem combined_flow_publishes_federated_identity (r : SessionRecord) :
  In r (published
          (events (exec (handleGoogleAuth keccak256 icap_decode env) (init s)))) ->
  exists cred tok,
    signInWithPopup env = inr cred /\
    access_token cred = Some tok /\
    tok <> "" /\
    ((wallet_fails keccak256 icap_decode env /\
      r = google_session (user cred) None tok) \/
     (exists address,
         wallet_connects keccak256 icap_decode env address /\
         r = google_session (user cred) (Some address) tok)).
Proof.
  destruct (signInWithPopup env) as [e|cred] eqn:Hs.
  { run. rewrite Hs. cbn. split_run; intros []. }
  destruct (access_token cred) as [tok|] eqn:Hto.
  2:{ run. rewrite Hs. cbn. unfold access_token in Hto. rewrite Hto. cbn.
      intros []. }
  destruct (String.eqb tok "") eqn:Hne.
  { run. rewrite Hs. cbn. unfold access_token in Hto. rewrite Hto. cbn.
    rewrite Hne. cbn. intros []. }
  apply String.eqb_neq in Hne.
  destruct (federated_token cred tok Hto Hne) as [Ht Hstr].
  intros Hin. exists cred, tok. repeat (split; [assumption || reflexivity|]).
  revert Hin.
  destruct (ethereum_request env) as [req|] eqn:Hr.
  2:{ run. follow. intros [<- | []]. left. split; [now apply wallet_absent | reflexivity]. }
  destruct (req "eth_requestAccounts") as [e|accounts] eqn:Ha.
  { run. follow. intros [<- | []]. left.
    split; [now apply wallet_rejected with (req := req) (e := e) | reflexivity]. }
  destruct (getAddress_of keccak256 icap_decode (hd_error accounts))
    as [e|address] eqn:Hg.
  { run. follow. intros [<- | []]. left.
    split; [now apply wallet_bad_address with (req := req) (accounts := accounts) (e := e)
           | reflexivity]. }
  run. follow. intros [<- | []]. right. exists address.
  split; [exists req, accounts; auto | reflexivity].
Qed.

(** X20. The combined flow raises an information toast exactly when the Google
    popup was closed by the user, and then it is the single toast
    [Sign-in was cancelled]: a cancelled sign-in is the one failure that
    is not reported as an error.  Every other failure of the federated
    step (another rejection, a missing or empty token) is reported by a
    single error toast; after a successful federated step a failing
    wallet step is reported by the single error toast
    [Failed to connect wallet] when a provider is present, and by the
    single warning that MetaMask is not installed when none is. *)
Theorem cancelled_sign_in_is_information :
  let tr := events (exec (handleGoogleAuth keccak256 icap_decode env) (init s)) in
  (existsb is_info (notifications tr) = true
   <-> exists e, signInWithPopup env = inl e /\
                 code e = JStr "auth/popup-closed-by-user") /\
  ((exists e, signInWithPopup env = inl e /\
              code e = JStr "auth/popup-closed-by-user") ->
   notifications tr = [(Info, "Sign-in was cancelled")]) /\
  (federated_fails env ->
   ~ (exists e, signInWithPopup env = inl e /\
                code e = JStr "auth/popup-closed-by-user") ->
   exists msg, notifications tr = [(Error, msg)]) /\
  (federated_succeeds env ->
   wallet_fails keccak256 icap_decode env ->
   forall req, ethereum_request env = Some req ->
   notifications tr = [(Error, "Failed to connect wallet. Please try again.")]) /\
  (federated_succeeds env ->
   ethereum_request env = None ->
   notifications tr
   = [(Warn, "MetaMask is not installed. Continuing without wallet connection.")]).
Proof.
  cbn zeta. split; [|split; [|split; [|split]]].
  - destruct (signInWithPopup env) as [e|cred] eqn:Hs.
    + run. rewrite Hs. cbn.
      destruct (code e) as [| |b|n|t|items|fields] eqn:Hc; cbn;
        try (split; [discriminate | intros (e' & He' & Hc'); congruence]).
      destruct (t =? "auth/popup-closed-by-user")%string eqn:Ht; cbn.
      * apply String.eqb_eq in Ht. subst t. split; [eauto | reflexivity].
      * apply String.eqb_neq in Ht.
        destruct (t =? "auth/network-request-failed")%string; cbn;
          (split; [discriminate | intros (e' & He' & Hc'); congruence]).
    + run. rewrite Hs. cbn.
      split_run; (split; [discriminate | intros (e' & He' & _); discriminate]).
  - intros (e & He & Hc). run. rewrite He. cbn. rewrite Hc. reflexivity.
  - intros [[e He] | [cred [Hc Htok]]] Hnot.
    + run. rewrite He. cbn.
      destruct (strict_eq_str (code e) "auth/popup-closed-by-user") eqn:Hp.
      * exfalso. apply Hnot. exists e. split; [exact He|].
        destruct (code e); try discriminate. cbn in Hp.
        apply String.eqb_eq in Hp. now subst.
      * destruct (strict_eq_str (code e) "auth/network-request-failed");
          cbn; eauto.
    + run. rewrite Hc. cbn. unfold access_token in Htok. rewrite Htok. cbn. eauto.
  - intros (cred & Hc & Htok) Hfail req Hreq.
    unfold access_token in Htok.
    destruct Hfail as [Habs | req' e Hreq' He | req' accounts e Hreq' Hacc Haddr].
    + congruence.
    + clear Hreq. run. follow. reflexivity.
    + clear Hreq. run. follow. reflexivity.
  - intros (cred & Hc & Htok) Habs.
    unfold access_token in Htok. run. follow. reflexivity.
Qed.

(** X21. The helpers below [connectWallet] leave the session state alone, from
    any state: requesting the challenge and signing change neither the
    store nor [isWalletConnected], and verifying or running the whole
    login never changes [isWalletConnected]. *)
Theorem helpers_leave_session_state (w : World) (address : string)
    (message : jsval) (signature : string) :
  store (exec (getSiweMessage env address) w) = store w /\
  isWalletConnected (exec (getSiweMessage env address) w) = isWalletConnected w /\
  store (exec (signMessage env message) w) = store w /\
  isWalletConnected (exec (signMessage env message) w) = isWalletConnected w /\
  isWalletConnected (exec (verifySignature env address message signature) w)
    = isWalletConnected w /\
  isWalletConnected (exec (handleMetaMaskLogin env address) w)
    = isWalletConnected w.
Proof.
  repeat split; run; split_run; reflexivity.
Qed.

End MoreFlows.

(** ** The further properties on concrete collaborators *)

Section MoreRuns.

Import Example.
Import Scenario.

(** A verdict that is the string [false] is truthy: the session is
    published. *)
Example connectWallet_verdict_string :
  published
    (events (exec (connectWallet Keccak.keccak256 no_icap env_verdict_string)
                  (init None)))
  = [wallet_session account_checksummed].
Proof. vm_compute. reflexivity. Qed.

Example connectWallet_bad_account :
  events (exec (connectWallet Keccak.keccak256 no_icap env_bad_account) (init None))
  = [EthereumRequest "eth_requestAccounts";
     SetIsWalletConnected true;
     ConsoleError [LStr "Failed to connect MetaMask and login:";
                   LErr (Js.Error "invalid address")];
     Toast Error "Failed to connect wallet. Please try again."].
Proof. vm_compute. reflexivity. Qed.

Lemma wallet_flow_signing_rejected_witness :
  let w := exec (connectWallet Keccak.keccak256 no_icap env_signing_rejected)
                (init None) in
  http_requests (events w) = [challenge_request env_signing_rejected account_checksummed] /\
  published (events w) = [] /\
  notifications (events w) = [SigningFailed; LoginFailed].
Proof.
  pose proof (wallet_flow_signing_rejected Keccak.keccak256 no_icap
                env_signing_rejected None account_checksummed challenge
                user_rejected
                (account_connects env_signing_rejected eq_refl)
                eq_refl eq_refl eq_refl) as H.
  cbv zeta in H |- *.
  destruct H as (Hh & _ & Hp & _ & _ & Hn & _).
  exact (conj Hh (conj Hp Hn)).
Defined.

Lemma wallet_flow_verification_unavailable_witness :
  let w := exec (connectWallet Keccak.keccak256 no_icap env_verify_down)
                (init None) in
  published (events w) = [] /\
  notifications (events w) = [VerificationRequestFailed].
Proof.
  assert (Hne : signature <> "") by discriminate.
  assert (Hver : (exists err,
                     answer env_verify_down (verify_request challenge signature)
                     = inl err) \/
                 (exists data,
                     answer env_verify_down (verify_request challenge signature)
                     = inr data /\ get data "success" = None)).
  { left. exists network_error. reflexivity. }
  pose proof (wallet_flow_verification_unavailable Keccak.keccak256 no_icap
                env_verify_down None account_checksummed challenge signature
                (account_connects env_verify_down eq_refl)
                eq_refl eq_refl eq_refl Hne Hver) as H.
  cbv zeta in H |- *.
  destruct H as (_ & Hp & _ & _ & Hn).
  exact (conj Hp Hn).
Defined.

Lemma wallet_flow_empty_challenge_witness :
  let w := exec (connectWallet Keccak.keccak256 no_icap env_empty_challenge)
                (init None) in
  sign_requests (events w) = [] /\
  notifications (events w) = [LoginFailed].
Proof.
  pose proof (wallet_flow_empty_challenge Keccak.keccak256 no_icap
                env_empty_challenge None account_checksummed (JStr "")
                (account_connects env_empty_challenge eq_refl)
                eq_refl eq_refl) as H.
  cbv zeta in H |- *.
  destruct H as (_ & Hs & _ & _ & _ & Hn).
  exact (conj Hs Hn).
Defined.

Lemma wallet_flow_empty_signature_witness :
  let w := exec (connectWallet Keccak.keccak256 no_icap env_empty_signature)
                (init None) in
  http_requests (events w) = [challenge_request env_empty_signature account_checksummed] /\
  notifications (events w) = [LoginFailed].
Proof.
  pose proof (wallet_flow_empty_signature Keccak.keccak256 no_icap
                env_empty_signature None account_checksummed challenge
                (account_connects env_empty_signature eq_refl)
                eq_refl eq_refl eq_refl) as H.
  cbv zeta in H |- *.
  destruct H as (Hh & _ & _ & _ & _ & Hn).
  exact (conj Hh Hn).
Defined.


Lemma isWalletConnected_never_reset_witness :
  isWalletConnected
    (exec (connectWallet Keccak.keccak256 no_icap env_declined) connected_before)
  = true.
Proof.
  exact (proj2 (isWalletConnected_never_reset Keccak.keccak256 no_icap
                  env_declined connected_before eq_refl)).
Defined.

Lemma connectWallet_sets_isWalletConnected_witness :
  isWalletConnected
    (exec (connectWallet Keccak.keccak256 no_icap env_bad_account) (init None))
  = true.
Proof.
  apply (proj2 (connectWallet_sets_isWalletConnected Keccak.keccak256 no_icap
                  env_bad_account None)).
  exists (fun _ => inr ["0x1234"]), ["0x1234"]. split; reflexivity.
Defined.

Lemma handleGoogleAuth_sets_isWalletConnected_witness :
  isWalletConnected
    (exec (handleGoogleAuth Keccak.keccak256 no_icap env_bad_account) (init None))
  = true.
Proof.
  apply (proj2 (handleGoogleAuth_sets_isWalletConnected Keccak.keccak256 no_icap
                  env_bad_account None)).
  split.
  - eexists. split; reflexivity.
  - exists (fun _ => inr ["0x1234"]), ["0x1234"]. split; reflexivity.
Defined.

Lemma verifySignature_publishes_iff_truthy_witness :
  published
    (events (exec (verifySignature env_verdict_string account_checksummed
                     challenge signature) (init None)))
  = [wallet_session account_checksummed].
Proof.
  apply (proj2 (proj1 (verifySignature_publishes_iff_truthy env_verdict_string
                         None account_checksummed challenge signature))).
  exists (JObj [("success", JStr "false")]), (JStr "false").
  repeat split.
Defined.

Lemma wallet_flow_requests_are_chained_witness :
  exists address,
    wallet_connects Keccak.keccak256 no_icap (env_wallet true) address /\
    answer (env_wallet true) (challenge_request (env_wallet true) address)
    = inr challenge /\
    truthy challenge = true.
Proof.
  apply (proj2 (wallet_flow_requests_are_chained Keccak.keccak256 no_icap
                  (env_wallet true) None) challenge).
  vm_compute. left. reflexivity.
Defined.

Lemma published_addresses_are_canonical_witness :
  getAddress Keccak.keccak256 no_icap account_checksummed = inr account_checksummed.
Proof.
  refine (proj1 (published_addresses_are_canonical Keccak.keccak256 no_icap
                   (env_wallet true) None
                   (wallet_session account_checksummed) account_checksummed
                   _ eq_refl)).
  right. vm_compute. left. reflexivity.
Defined.

Lemma wallet_flow_publishes_verified_identity_witness :
  exists address message signature data verdict,
    wallet_connects Keccak.keccak256 no_icap (env_wallet true) address /\
    answer (env_wallet true) (challenge_request (env_wallet true) address)
    = inr message /\
    signer_signMessage (env_wallet true) message = inr signature /\
    answer (env_wallet true) (verify_request message signature) = inr data /\
    get data "success" = Some verdict /\
    truthy verdict = true /\
    wallet_session account_checksummed = wallet_session address.
Proof.
  apply (wallet_flow_publishes_verified_identity Keccak.keccak256 no_icap
           (env_wallet true) None (wallet_session account_checksummed)).
  vm_compute. left. reflexivity.
Defined.

Lemma combined_flow_publishes_federated_identity_witness :
  exists cred tok,
    signInWithPopup env_declined = inr cred /\
    access_token cred = Some tok /\
    tok <> "" /\
    ((wallet_fails Keccak.keccak256 no_icap env_declined /\
      google_session alice None "ya29.a0Af" = google_session (user cred) None tok) \/
     (exists address,
         wallet_connects Keccak.keccak256 no_icap env_declined address /\
         google_session alice None "ya29.a0Af"
         = google_session (user cred) (Some address) tok)).
Proof.
  apply (combined_flow_publishes_federated_identity Keccak.keccak256 no_icap
           env_declined None (google_session alice None "ya29.a0Af")).
  left. reflexivity.
Defined.

Lemma cancelled_sign_in_is_information_witness :
  existsb is_info
    (notifications
       (events (exec (handleGoogleAuth Keccak.keccak256 no_icap env_popup_closed)
                     (init None)))) = true /\
  notifications
    (events (exec (handleGoogleAuth Keccak.keccak256 no_icap env_popup_closed)
                  (init None)))
  = [(Info, "Sign-in was cancelled")].
Proof.
  assert (Hc : exists e, signInWithPopup env_popup_closed = inl e /\
                         code e = JStr "auth/popup-closed-by-user").
  { exists popup_closed. split; reflexivity. }
  pose proof (cancelled_sign_in_is_information Keccak.keccak256 no_icap
                env_popup_closed None) as H.
  cbv zeta in H.
  destruct H as (Hiff & Hone & _).
  exact (conj (proj2 Hiff Hc) (Hone Hc)).
Defined.

Lemma success_toast_iff_wallet_published_witness :
  notifications
    (events (exec (handleGoogleAuth Keccak.keccak256 no_icap env_no_wallet)
                  (init None)))
  = [(Warn, "MetaMask is not installed. Continuing without wallet connection.")] \/
  notifications
    (events (exec (handleGoogleAuth Keccak.keccak256 no_icap env_no_wallet)
                  (init None)))
  = [(Error, "Failed to connect wallet. Please try again.")].
Proof.
  pose proof (success_toast_iff_wallet_published Keccak.keccak256 no_icap
                env_no_wallet None) as H.
  cbv zeta in H.
  destruct H as (_ & _ & Hfed & _).
  apply (Hfed (google_session alice None "ya29.a0Af")).
  - left. reflexivity.
  - reflexivity.
Defined.

End MoreRuns.
